(** * A shallow embedding of the NEO JSON-RPC client (neo-go-sdk)

    Sources: [neo/request.go] ([executeRequest], [response.Error]) and the
    client operations ([NewClient], [NewClientUsingMultipleNodes],
    [SelectBestNode], the RPC wrappers, [ValidateAddress]).

    The network is an environment: a URL check standing for
    [http.NewRequest]'s parse of the node URI, and an oracle giving the outcome
    of [client.Do] for every request.  Effects are a writer monad whose output
    is the list of requests actually posted, in order. *)

From Stdlib Require Import String Ascii List ZArith Lia Bool.
From Stdlib Require Import DecimalString.
Import ListNotations.
Set Warnings "-register-all".
Open Scope string_scope.
Open Scope Z_scope.

(** ** JSON documents *)

(** JSON values as the decoder sees them.  A number literal is either an
    integer literal ([JInt]) or one with a fraction or exponent ([JReal],
    kept as its text). *)
Inductive json : Type :=
| JNull
| JBool (b : bool)
| JInt (n : Z)
| JReal (lit : string)
| JStr (s : string)
| JArr (xs : list json)
| JObj (kvs : list (string * json)).

(** ** Go types and values used as decoding targets *)

(** [TInt] is Go's [int] / [int64] (64 bits); [TAny] is [interface{}];
    [TMap t] is [map[string]t]; struct fields are listed by their JSON
    name (the [json:"..."] tag). *)
Inductive gotype : Type :=
| TInt
| TString
| TBool
| TAny
| TSlice (t : gotype)
| TMap (t : gotype)
| TStruct (fs : list (string * gotype)).

(** Go values.  [VAny j] is an [interface{}] holding the decoded JSON [j]
    ([VAny JNull] is the nil interface); [VSlice None] / [VMap None] are the
    nil slice / map; [VPtr] is a pointer returned by an operation. *)
Inductive goval : Type :=
| VInt (n : Z)
| VString (s : string)
| VBool (b : bool)
| VAny (j : json)
| VSlice (xs : option (list goval))
| VMap (m : option (list (string * goval)))
| VStruct (fs : list (string * goval))
| VPtr (p : option goval).

(** The zero value of a type. *)
Fixpoint zero (t : gotype) : goval :=
  match t with
  | TInt => VInt 0
  | TString => VString ""
  | TBool => VBool false
  | TAny => VAny JNull
  | TSlice _ => VSlice None
  | TMap _ => VMap None
  | TStruct fs =>
      VStruct ((fix zs (fs : list (string * gotype)) :=
                  match fs with
                  | [] => []
                  | (k, t') :: r => (k, zero t') :: zs r
                  end) fs)
  end.

(** ** [encoding/json] decoding ([json.Unmarshal])

    Go's decoder keeps going after a type mismatch (the target is left as it
    was) and reports the first mismatch at the end: the boolean returned is
    "a type error occurred". *)

Definition lower_ascii (c : ascii) : ascii :=
  let n := nat_of_ascii c in
  if (65 <=? n)%nat && (n <=? 90)%nat then ascii_of_nat (n + 32) else c.

Fixpoint lower (s : string) : string :=
  match s with
  | EmptyString => EmptyString
  | String c r => String (lower_ascii c) (lower r)
  end.

(** Field lookup of the decoder: an exact match on the JSON name first, then
    a case-insensitive one (ASCII case folding). *)
Definition find_field {A} (key : string) (fs : list (string * A)) : option string :=
  match find (fun kv => String.eqb (fst kv) key) fs with
  | Some (k, _) => Some k
  | None =>
      match find (fun kv => String.eqb (lower (fst kv)) (lower key)) fs with
      | Some (k, _) => Some k
      | None => None
      end
  end.

Fixpoint assoc {A} (k : string) (l : list (string * A)) : option A :=
  match l with
  | [] => None
  | (k', v) :: r => if String.eqb k' k then Some v else assoc k r
  end.

(** Replace the value of an existing key. *)
Fixpoint set_field {A} (k : string) (v : A) (l : list (string * A)) : list (string * A) :=
  match l with
  | [] => []
  | (k', v') :: r => if String.eqb k' k then (k', v) :: r else (k', v') :: set_field k v r
  end.

(** [SetMapIndex]: overwrite the key if present, else add it. *)
Definition map_set {A} (k : string) (v : A) (l : list (string * A)) : list (string * A) :=
  match assoc k l with
  | Some _ => set_field k v l
  | None => (l ++ [(k, v)])%list
  end.

Definition int64_in_range (n : Z) : bool :=
  (- 2 ^ 63 <=? n) && (n <? 2 ^ 63).

Fixpoint field_type (k : string) (fs : list (string * gotype)) : gotype :=
  match fs with
  | [] => TAny
  | (k', t) :: r => if String.eqb k' k then t else field_type k r
  end.

Definition slice_nth (xs : list goval) (i : nat) (d : goval) : goval := nth i xs d.

(** [decode t j cur]: decode JSON [j] into a target of type [t] whose
    current value is [cur]. *)
Fixpoint decode (t : gotype) (j : json) (cur : goval) {struct j} : goval * bool :=
  match j with
  | JNull =>
      match t with
      | TAny => (VAny JNull, false)
      | TSlice _ => (VSlice None, false)
      | TMap _ => (VMap None, false)
      | _ => (cur, false)
      end
  | JBool b =>
      match t with
      | TBool => (VBool b, false)
      | TAny => (VAny j, false)
      | _ => (cur, true)
      end
  | JInt n =>
      match t with
      | TInt => if int64_in_range n then (VInt n, false) else (cur, true)
      | TAny => (VAny j, false)
      | _ => (cur, true)
      end
  | JReal _ =>
      match t with
      | TAny => (VAny j, false)
      | _ => (cur, true)
      end
  | JStr s =>
      match t with
      | TString => (VString s, false)
      | TAny => (VAny j, false)
      | _ => (cur, true)
      end
  | JArr xs =>
      match t with
      | TAny => (VAny j, false)
      | TSlice u =>
          (* existing elements are decoded into, the slice is cut to the
             array's length; an empty array gives an empty non-nil slice *)
          let old := match cur with VSlice (Some l) => l | _ => [] end in
          let fix go (xs : list json) (i : nat) : list goval * bool :=
              match xs with
              | [] => ([], false)
              | x :: r =>
                  let (v, e1) := decode u x (slice_nth old i (zero u)) in
                  let (vs, e2) := go r (S i) in
                  (v :: vs, e1 || e2)
              end in
          let (vs, e) := go xs 0%nat in (VSlice (Some vs), e)
      | _ => (cur, true)
      end
  | JObj kvs =>
      match t with
      | TAny => (VAny j, false)
      | TMap u =>
          (* a nil map is allocated; each element is decoded from zero *)
          let m0 := match cur with VMap (Some m) => m | _ => [] end in
          let fix go (kvs : list (string * json)) (m : list (string * goval))
              : list (string * goval) * bool :=
              match kvs with
              | [] => (m, false)
              | (k, x) :: r =>
                  let (v, e1) := decode u x (zero u) in
                  let (m', e2) := go r (map_set k v m) in
                  (m', e1 || e2)
              end in
          let (m, e) := go kvs m0 in (VMap (Some m), e)
      | TStruct fts =>
          (* each member is decoded into the current value of its field;
             unknown members are skipped *)
          let fix go (kvs : list (string * json)) (fs : list (string * goval))
              : list (string * goval) * bool :=
              match kvs with
              | [] => (fs, false)
              | (k, x) :: r =>
                  match find_field k fts with
                  | None => go r fs
                  | Some f =>
                      let curf := match assoc f fs with Some v => v | None => zero (field_type f fts) end in
                      let (v, e1) := decode (field_type f fts) x curf in
                      let (fs', e2) := go r (set_field f v fs) in
                      (fs', e1 || e2)
                  end
              end in
          let fs0 := match cur with VStruct fs => fs | _ => [] end in
          let (fs, e) := go kvs fs0 in (VStruct fs, e)
      | _ => (cur, true)
      end
  end.

(** The raw body read from the HTTP response: bytes that are not a JSON
    document ([BMalformed]), or a JSON document. *)
Inductive body : Type :=
| BMalformed
| BJson (j : json).

(** [json.Unmarshal(bytes, &model)] where [model] is an [interface{}] holding
    a pointer to a struct of type [t] with current value [cur].  The input is
    first checked to be valid JSON (syntax error otherwise); then it is
    decoded into the pointed-to struct ([null] only clears the interface
    variable and leaves the struct as it was). *)
Inductive unmarshal_error : Type := USyntax | UType.

Definition unmarshal (t : gotype) (b : body) (cur : goval) : goval * option unmarshal_error :=
  match b with
  | BMalformed => (cur, Some USyntax)
  | BJson JNull => (cur, None)
  | BJson j =>
      let (v, e) := decode t j cur in (v, if e then Some UType else None)
  end.

(** ** Errors *)

(** The errors [executeRequest] and the client can return. *)
Inductive goerror : Type :=
| EMarshal                      (* json.Marshal of a body parameter failed *)
| EBadURL                       (* http.NewRequest could not parse the URI *)
| ETransport (msg : string)     (* client.Do failed *)
| EStatus (code : Z)            (* non-200 status *)
| ERead                         (* ioutil.ReadAll failed *)
| EUnmarshal (e : unmarshal_error)
| ERPC (code : Z) (msg : string) (* populated JSON-RPC error envelope *)
| EText (msg : string).         (* errors.New / fmt.Errorf with a fixed text *)

(** Decimal rendering of an integer, as [%d] / [%v] print it. *)
Definition z_to_string (z : Z) : string :=
  NilZero.string_of_int (Z.to_int z).

(** The text of an error ([err.Error()]); transport, read and decoding
    errors carry library texts that are not modelled. *)
Definition error_text (e : goerror) : string :=
  match e with
  | EStatus c =>
      "non-200 status code returned from NEO node, got: '" ++ z_to_string c ++ "'"
  | ERPC c m => "error code: " ++ z_to_string c ++ ", error message: " ++ m
  | ETransport m => m
  | EText m => m
  | _ => ""
  end.

Fixpoint is_prefix (p s : string) : bool :=
  match p, s with
  | EmptyString, _ => true
  | String a p', String b s' => Ascii.eqb a b && is_prefix p' s'
  | _, _ => false
  end.

(** [strings.Contains s sub]. *)
Fixpoint contains (s sub : string) : bool :=
  is_prefix sub s ||
  match s with
  | EmptyString => false
  | String _ s' => contains s' sub
  end.

(** ** Requests *)

(** A body parameter ([interface{}] element of [bodyParameters]): Go values
    [json.Marshal] can encode, given by their JSON form, or a value it
    rejects (a channel, a function, NaN, ...). *)
Inductive param : Type :=
| PStr (s : string)
| PInt (n : Z)
| PAny (j : json)
| PUnencodable.

Definition marshal_param (p : param) : option json :=
  match p with
  | PStr s => Some (JStr s)
  | PInt n => Some (JInt n)
  | PAny j => Some j
  | PUnencodable => None
  end.

Fixpoint marshal_params (ps : list param) : option (list json) :=
  match ps with
  | [] => Some []
  | p :: r =>
      match marshal_param p, marshal_params r with
      | Some j, Some js => Some (j :: js)
      | _, _ => None
      end
  end.

(** Modelled from the spec: the package [neo/models/request] ([NewBody],
    [NewBodyWithParameters]) is not among the sources.  The spec: request
    bodies are JSON-RPC 2.0 envelopes carrying the method name and the
    positional parameters.  The spec fixes no id; the body uses id 1. *)
Definition rpc_id : Z := 1.

(** Modelled from the spec: [request.NewBodyWithParameters(method, params)]. *)
Definition NewBodyWithParameters (method : string) (ps : list param) : option json :=
  match marshal_params ps with
  | Some js =>
      Some (JObj [("jsonrpc", JStr "2.0"); ("method", JStr method);
                  ("params", JArr js); ("id", JInt rpc_id)])
  | None => None
  end.

(** Modelled from the spec: [request.NewBody(method)], a call without
    parameters (an empty positional list). *)
Definition NewBody (method : string) : option json :=
  Some (JObj [("jsonrpc", JStr "2.0"); ("method", JStr method);
              ("params", JArr []); ("id", JInt rpc_id)]).

(** A request posted to a node. *)
Record Request := mkRequest { req_uri : string; req_body : json }.

(** The HTTP response: a status and the result of reading the body. *)
Inductive outcome : Type :=
| TransportFailure (msg : string)
| HttpResponse (status : Z) (rd : option body).  (* None: ReadAll failed *)

(** The environment: which URIs [http.NewRequest] accepts, and what
    [client.Do] gives for a request that reaches the transport. *)
Record Env := mkEnv {
  url_ok : string -> bool;
  net : Request -> outcome
}.

(** [client.Do]: the empty URI parses to a URL with no scheme, which the
    client refuses ("unsupported protocol scheme"); other requests go to
    the network. *)
Definition http_do (env : Env) (r : Request) : outcome :=
  if String.eqb (req_uri r) "" then TransportFailure "unsupported protocol scheme"
  else net env r.

(** ** The writer monad of posted requests *)

Definition M (A : Type) : Type := A * list Request.

Definition ret {A} (a : A) : M A := (a, []).

Definition bind {A B} (m : M A) (f : A -> M B) : M B :=
  let (a, w) := m in let (b, w') := f a in (b, (w ++ w')%list).

Definition post (r : Request) : M unit := (tt, [r]).

Notation "x <- m ;; k" := (bind m (fun x => k)) (at level 61, m at next level, right associativity).

(** ** [executeRequest] *)

(** [response.Error]: the JSON schema of an error response. *)
Definition error_envelope_t : gotype :=
  TStruct [("id", TInt); ("jsonrpc", TString);
           ("error", TStruct [("code", TInt); ("message", TString)])].

Definition field (k : string) (v : goval) : option goval :=
  match v with VStruct fs => assoc k fs | _ => None end.

Definition get_int (v : option goval) : Z :=
  match v with Some (VInt n) => n | _ => 0 end.

Definition get_string (v : option goval) : string :=
  match v with Some (VString s) => s | _ => "" end.

(** [errorResp.Error.Code] and [errorResp.Error.Message]. *)
Definition env_code (e : goval) : Z :=
  match field "error" e with Some er => get_int (field "code" er) | None => 0 end.

Definition env_message (e : goval) : string :=
  match field "error" e with Some er => get_string (field "message" er) | None => "" end.

(** [executeRequest(method, bodyParameters, nodeURI, model)]: [params] is
    [None] for a nil [bodyParameters]; [t] is the type [model] points to and
    [cur] its current value.  Returns the new value of [*model] and the
    error. *)
Definition executeRequest (env : Env) (method : string) (params : option (list param))
    (nodeURI : string) (t : gotype) (cur : goval) : M (goval * option goerror) :=
  let body := match params with
              | None => NewBody method
              | Some ps => NewBodyWithParameters method ps
              end in
  match body with
  | None => ret (cur, Some EMarshal)
  | Some b =>
      if negb (url_ok env nodeURI) then ret (cur, Some EBadURL) else
      let r := mkRequest nodeURI b in
      _ <- post r ;;
      match http_do env r with
      | TransportFailure m => ret (cur, Some (ETransport m))
      | HttpResponse status rd =>
          if negb (status =? 200) then ret (cur, Some (EStatus status)) else
          match rd with
          | None => ret (cur, Some ERead)
          | Some bytes =>
              let (model, err) := unmarshal t bytes cur in
              match err with
              | Some e => ret (model, Some (EUnmarshal e))
              | None =>
                  let (errorResp, err2) := unmarshal error_envelope_t bytes (zero error_envelope_t) in
                  match err2 with
                  | Some e => ret (model, Some (EUnmarshal e))
                  | None =>
                      if negb (String.eqb (env_message errorResp) "")
                      then ret (model, Some (ERPC (env_code errorResp) (env_message errorResp)))
                      else ret (model, None)
                  end
              end
          end
      end
  end.

(** ** Response shapes *)

(** [response.Block] (neo/models/response/block.go), over the type of
    [models.Block], which is not among the sources. *)
Definition Block_t (block_t : gotype) : gotype :=
  TStruct [("id", TInt); ("jsonrpc", TString); ("result", block_t)].

(** Modelled from the spec: [response.String], [response.Integer],
    [response.StringArray], [response.StringMap] and [response.Transaction],
    [response.Vout] are not among the sources; the spec calls them flat
    records mirroring the result field (string, integer, string array,
    string-keyed map, transaction, vout), laid out like [response.Block]. *)
Definition envelope_of (result_t : gotype) : gotype :=
  TStruct [("id", TInt); ("jsonrpc", TString); ("result", result_t)].

Definition String_t : gotype := envelope_of TString.
Definition Integer_t : gotype := envelope_of TInt.
Definition StringArray_t : gotype := envelope_of (TSlice TString).
Definition StringMap_t : gotype := envelope_of (TMap TAny).

(** The field [k] of a struct value. *)
Definition fld (k : string) (v : goval) : goval :=
  match field k v with Some x => x | None => VAny JNull end.

(** [hex.EncodeToString([]byte(s))]: two lower-case hex digits per byte. *)
Definition hex_digit (n : nat) : ascii :=
  if (n <? 10)%nat then ascii_of_nat (48 + n) else ascii_of_nat (87 + n).

Fixpoint hex_encode (s : string) : string :=
  match s with
  | EmptyString => EmptyString
  | String c r =>
      let n := nat_of_ascii c in
      String (hex_digit (n / 16)) (String (hex_digit (n mod 16)) (hex_encode r))
  end.

(** ** The client *)

(** [Client]: the selected node and the list of node URIs. *)
Record Client := mkClient { Node : string; nodeURIs : list string }.

(** [NewClient(nodeURI)]. *)
Definition NewClient (nodeURI : string) : Client := mkClient nodeURI [nodeURI].

(* The operations below return their Go results (all but the error) as a
   list, together with the error. *)

Section Operations.

(** The types of [models.Block], [models.Transaction] and [models.Vout]
    (package [neo/models], not among the sources), and the JSON name of the
    field [models.Transaction.ID]. *)
Variables block_t tx_t vout_t : gotype.
Variable tx_id_key : string.

Variable env : Env.

Definition GetBestBlockHash (c : Client) : M (list goval * option goerror) :=
  x <- executeRequest env "getbestblockhash" None (Node c) String_t (zero String_t) ;;
  let (resp, err) := x in
  match err with
  | Some e => ret ([VString ""], Some e)
  | None => ret ([fld "result" resp], None)
  end.

Definition GetBlockByHash (c : Client) (hash : string) : M (list goval * option goerror) :=
  let requestBodyParams := [PStr hash; PInt 1] in
  x <- executeRequest env "getblock" (Some requestBodyParams) (Node c)
         (Block_t block_t) (zero (Block_t block_t)) ;;
  let (resp, err) := x in
  match err with
  | Some e => ret ([VPtr None], Some e)
  | None => ret ([VPtr (Some (fld "result" resp))], None)
  end.

Definition GetBlockByIndex (c : Client) (index : Z) : M (list goval * option goerror) :=
  let requestBodyParams := [PInt index; PInt 1] in
  x <- executeRequest env "getblock" (Some requestBodyParams) (Node c)
         (Block_t block_t) (zero (Block_t block_t)) ;;
  let (resp, err) := x in
  match err with
  | Some e => ret ([VPtr None], Some e)
  | None => ret ([VPtr (Some (fld "result" resp))], None)
  end.

Definition GetBlockCount (c : Client) : M (list goval * option goerror) :=
  x <- executeRequest env "getblockcount" None (Node c) Integer_t (zero Integer_t) ;;
  let (resp, err) := x in
  match err with
  | Some e => ret ([VInt 0], Some e)
  | None => ret ([fld "result" resp], None)
  end.

Definition GetBlockHash (c : Client) (index : Z) : M (list goval * option goerror) :=
  let requestBodyParams := [PInt index] in
  x <- executeRequest env "getblockhash" (Some requestBodyParams) (Node c)
         String_t (zero String_t) ;;
  let (resp, err) := x in
  match err with
  | Some e => ret ([VString ""], Some e)
  | None => ret ([fld "result" resp], None)
  end.

Definition GetConnectionCount (c : Client) : M (list goval * option goerror) :=
  x <- executeRequest env "getconnectioncount" None (Node c) Integer_t (zero Integer_t) ;;
  let (resp, err) := x in
  match err with
  | Some e => ret ([VInt 0], Some e)
  | None => ret ([fld "result" resp], None)
  end.

Definition GetStorage (c : Client) (scriptHash storageKey : string)
    : M (list goval * option goerror) :=
  let requestBodyParams := [PStr scriptHash; PStr (hex_encode storageKey)] in
  x <- executeRequest env "getstorage" (Some requestBodyParams) (Node c)
         String_t (zero String_t) ;;
  let (resp, err) := x in
  match err with
  | Some e => ret ([VString ""], Some e)
  | None => ret ([fld "result" resp], None)
  end.

Definition GetTransaction (c : Client) (hash : string) : M (list goval * option goerror) :=
  let requestBodyParams := [PStr hash; PInt 1] in
  x <- executeRequest env "getrawtransaction" (Some requestBodyParams) (Node c)
         (envelope_of tx_t) (zero (envelope_of tx_t)) ;;
  let (resp, err) := x in
  match err with
  | Some e => ret ([VPtr None], Some e)
  | None => ret ([VPtr (Some (fld "result" resp))], None)
  end.

Definition GetTransactionOutput (c : Client) (hash : string) (index : Z)
    : M (list goval * option goerror) :=
  let requestBodyParams := [PStr hash; PInt index] in
  x <- executeRequest env "gettxout" (Some requestBodyParams) (Node c)
         (envelope_of vout_t) (zero (envelope_of vout_t)) ;;
  let (resp, err) := x in
  match err with
  | Some e => ret ([VPtr None], Some e)
  | None => ret ([VPtr (Some (fld "result" resp))], None)
  end.

Definition GetUnconfirmedTransactions (c : Client) : M (list goval * option goerror) :=
  x <- executeRequest env "getrawmempool" None (Node c) StringArray_t (zero StringArray_t) ;;
  let (resp, err) := x in
  match err with
  | Some e => ret ([VSlice None], Some e)
  | None => ret ([fld "result" resp], None)
  end.

(** [resp.Result[k]] with the comma-ok form, on a [map[string]interface{}]. *)
Definition map_lookup (k : string) (m : goval) : option json :=
  match m with
  | VMap (Some kvs) => match assoc k kvs with Some (VAny j) => Some j | _ => None end
  | _ => None
  end.

Definition ValidateAddress (c : Client) (address : string) : M (list goval * option goerror) :=
  let requestBodyParams := [PStr address] in
  x <- executeRequest env "validateaddress" (Some requestBodyParams) (Node c)
         StringMap_t (zero StringMap_t) ;;
  let (resp, err) := x in
  match err with
  | Some e => ret ([VBool false], Some e)
  | None =>
      let m := fld "result" resp in
      match map_lookup "address" m with
      | None => ret ([VBool false], None)
      | Some a =>
          match a with
          | JStr returnedAddress =>
              match map_lookup "isvalid" m with
              | None => ret ([VBool false], None)
              | Some v =>
                  match v with
                  | JBool valid =>
                      if String.eqb address returnedAddress && valid
                      then ret ([VBool true], None)
                      else ret ([VBool false], None)
                  | _ => ret ([VBool false], None)
                  end
              end
          | _ => ret ([VBool false], None)
          end
      end
  end.

(** The anonymous response struct of [GetBalance]: the embedded
    [response.StringMap] gives [id] and [jsonrpc]; its [result] is shadowed
    by the outer [Result jd]. *)
Definition balance_resp_t : gotype :=
  TStruct [("id", TInt); ("jsonrpc", TString);
           ("result", TStruct [("balance", TString); ("confirmed", TString)])].

Definition GetBalance (c : Client) (assetID : string) : M (list goval * option goerror) :=
  let requestBodyParams := [PStr assetID] in
  x <- executeRequest env "getbalance" (Some requestBodyParams) (Node c)
         balance_resp_t (zero balance_resp_t) ;;
  let (resp, err) := x in
  match err with
  | Some e => ret ([VString ""; VString ""], Some e)
  | None =>
      ret ([fld "balance" (fld "result" resp); fld "confirmed" (fld "result" resp)], None)
  end.

(** The anonymous response struct of [GetNewAddress]. *)
Definition new_address_resp_t : gotype :=
  TStruct [("id", TInt); ("jsonrpc", TString); ("result", TString)].

Definition GetNewAddress (c : Client) : M (list goval * option goerror) :=
  x <- executeRequest env "getnewaddress" None (Node c)
         new_address_resp_t (zero new_address_resp_t) ;;
  let (resp, err) := x in
  match err with
  | Some e => ret ([VString ""], Some e)
  | None => ret ([fld "result" resp], None)
  end.

Definition SendToAddress (c : Client) (assetID toAddress : string) (amount : param)
    : M (list goval * option goerror) :=
  let requestBodyParams := [PStr assetID; PStr toAddress; amount] in
  x <- executeRequest env "sendtoaddress" (Some requestBodyParams) (Node c)
         (envelope_of tx_t) (zero (envelope_of tx_t)) ;;
  let (resp, err) := x in
  match err with
  | Some e => ret ([VString ""], Some e)
  | None => ret ([fld tx_id_key (fld "result" resp)], None)
  end.

(** The block count [GetBlockCount] reports. *)
Definition as_int (vs : list goval) : Z :=
  match vs with [VInt n] => n | _ => 0 end.

(** The loop of [SelectBestNode] over [c.nodeURIs], with [highestBlock] and
    [bestNode]. *)
Fixpoint select_loop (uris : list string) (highestBlock : Z) (bestNode : string)
    : M (Z * string) :=
  match uris with
  | [] => ret (highestBlock, bestNode)
  | nodeURI :: rest =>
      let tempClient := NewClient nodeURI in
      x <- GetBlockCount tempClient ;;
      let (vs, err) := x in
      match err with
      | Some _ => select_loop rest highestBlock bestNode
      | None =>
          let blockCount := as_int vs in
          if blockCount >? highestBlock
          then select_loop rest blockCount nodeURI
          else select_loop rest highestBlock bestNode
      end
  end.

(** [(c *Client) SelectBestNode()]: the updated client and the error. *)
Definition SelectBestNode (c : Client) : M (Client * option goerror) :=
  match nodeURIs c with
  | [u] => ret (mkClient u (nodeURIs c), None)
  | uris =>
      x <- select_loop uris 0 "" ;;
      let (_, bestNode) := x in
      if String.eqb bestNode ""
      then ret (c, Some (EText "Unable to communicate with any nodes"))
      else ret (mkClient bestNode (nodeURIs c), None)
  end.

(** [NewClientUsingMultipleNodes(nodeURIs)]: the client ([None] for a nil
    pointer) and the error; the error of [SelectBestNode] is dropped. *)
Definition NewClientUsingMultipleNodes (uris : list string) : M (option Client * option goerror) :=
  if (length uris =? 0)%nat
  then ret (None, Some (EText "Length of 'nodeURIs' argument must be greater than 0"))
  else
    let client := mkClient "" uris in
    x <- SelectBestNode client ;;
    let (client', _) := x in
    ret (Some client', None).

End Operations.

(** ** The client operations as one type *)

Inductive Call : Type :=
| CGetBestBlockHash
| CGetBlockByHash (hash : string)
| CGetBlockByIndex (index : Z)
| CGetBlockCount
| CGetBlockHash (index : Z)
| CGetConnectionCount
| CGetStorage (scriptHash storageKey : string)
| CGetTransaction (hash : string)
| CGetTransactionOutput (hash : string) (index : Z)
| CGetUnconfirmedTransactions
| CValidateAddress (address : string)
| CGetBalance (assetID : string)
| CGetNewAddress
| CSendToAddress (assetID toAddress : string) (amount : param).

Section Dispatch.

Variables block_t tx_t vout_t : gotype.
Variable tx_id_key : string.
Variable env : Env.

Definition run_call (c : Client) (call : Call) : M (list goval * option goerror) :=
  match call with
  | CGetBestBlockHash => GetBestBlockHash env c
  | CGetBlockByHash h => GetBlockByHash block_t env c h
  | CGetBlockByIndex i => GetBlockByIndex block_t env c i
  | CGetBlockCount => GetBlockCount env c
  | CGetBlockHash i => GetBlockHash env c i
  | CGetConnectionCount => GetConnectionCount env c
  | CGetStorage sh k => GetStorage env c sh k
  | CGetTransaction h => GetTransaction tx_t env c h
  | CGetTransactionOutput h i => GetTransactionOutput vout_t env c h i
  | CGetUnconfirmedTransactions => GetUnconfirmedTransactions env c
  | CValidateAddress a => ValidateAddress env c a
  | CGetBalance a => GetBalance env c a
  | CGetNewAddress => GetNewAddress env c
  | CSendToAddress a t amt => SendToAddress tx_t tx_id_key env c a t amt
  end.

(** The type each operation decodes its response into. *)
Definition call_type (call : Call) : gotype :=
  match call with
  | CGetBestBlockHash | CGetBlockHash _ | CGetStorage _ _ => String_t
  | CGetBlockByHash _ | CGetBlockByIndex _ => Block_t block_t
  | CGetBlockCount | CGetConnectionCount => Integer_t
  | CGetTransaction _ | CSendToAddress _ _ _ => envelope_of tx_t
  | CGetTransactionOutput _ _ => envelope_of vout_t
  | CGetUnconfirmedTransactions => StringArray_t
  | CValidateAddress _ => StringMap_t
  | CGetBalance _ => balance_resp_t
  | CGetNewAddress => new_address_resp_t
  end.

End Dispatch.

(** The value behind a returned pointer. *)
Definition deref (v : goval) : goval :=
  match v with VPtr (Some x) => x | _ => v end.

(** The NEO RPC method and positional parameters of each operation (NEO's
    JSON-RPC API). *)
Definition rpc_method (call : Call) : string :=
  match call with
  | CGetBestBlockHash => "getbestblockhash"
  | CGetBlockByHash _ | CGetBlockByIndex _ => "getblock"
  | CGetBlockCount => "getblockcount"
  | CGetBlockHash _ => "getblockhash"
  | CGetConnectionCount => "getconnectioncount"
  | CGetStorage _ _ => "getstorage"
  | CGetTransaction _ => "getrawtransaction"
  | CGetTransactionOutput _ _ => "gettxout"
  | CGetUnconfirmedTransactions => "getrawmempool"
  | CValidateAddress _ => "validateaddress"
  | CGetBalance _ => "getbalance"
  | CGetNewAddress => "getnewaddress"
  | CSendToAddress _ _ _ => "sendtoaddress"
  end.

(** Positional parameters; [verbose] = 1 asks for the JSON form of blocks
    and transactions; a storage key is sent hex-encoded. *)
Definition rpc_params (call : Call) : list param :=
  match call with
  | CGetBlockByHash h => [PStr h; PInt 1]
  | CGetBlockByIndex i => [PInt i; PInt 1]
  | CGetBlockHash i => [PInt i]
  | CGetStorage sh k => [PStr sh; PStr (hex_encode k)]
  | CGetTransaction h => [PStr h; PInt 1]
  | CGetTransactionOutput h i => [PStr h; PInt i]
  | CValidateAddress a => [PStr a]
  | CGetBalance a => [PStr a]
  | CSendToAddress a t amt => [PStr a; PStr t; amt]
  | _ => []
  end.

(** A JSON-RPC 2.0 request object: members [jsonrpc] = "2.0", [method] a
    string, optionally [params] (array or object) and [id] (string, number
    or null), no other member and no member twice. *)
Definition member_ok (kv : string * json) : bool :=
  match kv with
  | ("jsonrpc", JStr v) => String.eqb v "2.0"
  | ("method", JStr _) => true
  | ("params", (JArr _ | JObj _)) => true
  | ("id", (JStr _ | JInt _ | JReal _ | JNull)) => true
  | _ => false
  end.

Fixpoint nodup_keys (kvs : list (string * json)) : bool :=
  match kvs with
  | [] => true
  | (k, _) :: r => negb (existsb (fun kv => String.eqb (fst kv) k) r) && nodup_keys r
  end.

Definition valid_jsonrpc_request (j : json) : bool :=
  match j with
  | JObj kvs =>
      forallb member_ok kvs && nodup_keys kvs
      && existsb (fun kv => String.eqb (fst kv) "jsonrpc") kvs
      && existsb (fun kv => String.eqb (fst kv) "method") kvs
  | _ => false
  end.

Definition json_member (k : string) (j : json) : option json :=
  match j with JObj kvs => assoc k kvs | _ => None end.

(** ** Sanity checks on concrete inputs *)

Definition body_of (j : json) : outcome := HttpResponse 200 (Some (BJson j)).

Definition env_const (o : outcome) : Env := mkEnv (fun _ => true) (fun _ => o).

Example getblockcount_42 :
  fst (GetBlockCount (env_const (body_of (JObj [("jsonrpc", JStr "2.0"); ("id", JInt 1);
                                                 ("result", JInt 42)])))
                     (NewClient "http://seed1")) = ([VInt 42], None).
Proof. reflexivity. Qed.

Example getblockcount_rpc_error :
  fst (GetBlockCount (env_const (body_of (JObj [("error", JObj [("code", JInt (-32601));
                                                                ("message", JStr "Method not found")])])))
                     (NewClient "http://seed1"))
  = ([VInt 0], Some (ERPC (-32601) "Method not found")).
Proof. reflexivity. Qed.

Example rpc_error_text :
  error_text (ERPC (-32601) "x") = "error code: -32601, error message: x".
Proof. reflexivity. Qed.

Example hex_abc : hex_encode "ab" = "6162".
Proof. reflexivity. Qed.

Example result_key_case_insensitive :
  fst (GetBlockCount (env_const (body_of (JObj [("RESULT", JInt 7)]))) (NewClient "http://n"))
  = ([VInt 7], None).
Proof. reflexivity. Qed.

(** ** The steps of [executeRequest] *)

(** The body [executeRequest] builds ([NewBody] for nil parameters). *)
Definition build_body (method : string) (params : option (list param)) : option json :=
  match params with
  | None => NewBody method
  | Some ps => NewBodyWithParameters method ps
  end.

Section Pipeline.

Variables (env : Env) (method : string) (params : option (list param))
          (nodeURI : string) (t : gotype) (cur : goval).

(** The failing step of the pipeline "build body, create request, post,
    check status, read body, decode into the model, decode into the error
    envelope, check the envelope": each step is reached only when all the
    earlier ones succeeded. *)
Inductive pipeline_error : goerror -> Prop :=
| pe_marshal :
    build_body method params = None -> pipeline_error EMarshal
| pe_url : forall b,
    build_body method params = Some b -> url_ok env nodeURI = false ->
    pipeline_error EBadURL
| pe_transport : forall b m,
    build_body method params = Some b -> url_ok env nodeURI = true ->
    http_do env (mkRequest nodeURI b) = TransportFailure m ->
    pipeline_error (ETransport m)
| pe_status : forall b s rd,
    build_body method params = Some b -> url_ok env nodeURI = true ->
    http_do env (mkRequest nodeURI b) = HttpResponse s rd -> s <> 200 ->
    pipeline_error (EStatus s)
| pe_read : forall b,
    build_body method params = Some b -> url_ok env nodeURI = true ->
    http_do env (mkRequest nodeURI b) = HttpResponse 200 None ->
    pipeline_error ERead
| pe_model : forall b bs u,
    build_body method params = Some b -> url_ok env nodeURI = true ->
    http_do env (mkRequest nodeURI b) = HttpResponse 200 (Some bs) ->
    snd (unmarshal t bs cur) = Some u ->
    pipeline_error (EUnmarshal u)
| pe_envelope : forall b bs u,
    build_body method params = Some b -> url_ok env nodeURI = true ->
    http_do env (mkRequest nodeURI b) = HttpResponse 200 (Some bs) ->
    snd (unmarshal t bs cur) = None ->
    snd (unmarshal error_envelope_t bs (zero error_envelope_t)) = Some u ->
    pipeline_error (EUnmarshal u)
| pe_rpc : forall b bs e,
    build_body method params = Some b -> url_ok env nodeURI = true ->
    http_do env (mkRequest nodeURI b) = HttpResponse 200 (Some bs) ->
    snd (unmarshal t bs cur) = None ->
    unmarshal error_envelope_t bs (zero error_envelope_t) = (e, None) ->
    env_message e <> "" ->
    pipeline_error (ERPC (env_code e) (env_message e)).

(** All steps succeed, and the model holds [v]. *)
Definition pipeline_ok (v : goval) : Prop :=
  exists b bs e,
    build_body method params = Some b /\ url_ok env nodeURI = true /\
    http_do env (mkRequest nodeURI b) = HttpResponse 200 (Some bs) /\
    unmarshal t bs cur = (v, None) /\
    unmarshal error_envelope_t bs (zero error_envelope_t) = (e, None) /\
    env_message e = "".

(** The requests posted: one once the body is built and the URI accepted. *)
Definition posted : list Request :=
  match build_body method params with
  | Some b => if url_ok env nodeURI then [mkRequest nodeURI b] else []
  | None => []
  end.

Lemma executeRequest_posted :
  snd (executeRequest env method params nodeURI t cur) = posted.
Proof.
  unfold executeRequest, posted, build_body.
  destruct (match params with None => _ | Some ps => _ end) as [b|]; [|reflexivity].
  destruct (url_ok env nodeURI); [|reflexivity].
  simpl. destruct (http_do env _) as [m|s rd]; [reflexivity|].
  destruct (negb (s =? 200)); [reflexivity|].
  destruct rd as [bs|]; [|reflexivity].
  destruct (unmarshal t bs cur) as [model [u|]]; [reflexivity|].
  destruct (unmarshal error_envelope_t bs _) as [er [u|]]; [reflexivity|].
  destruct (negb _); reflexivity.
Qed.

Lemma executeRequest_error e :
  snd (fst (executeRequest env method params nodeURI t cur)) = Some e <-> pipeline_error e.
Proof.
  unfold executeRequest. fold (build_body method params).
  split.
  - destruct (build_body method params) as [b|] eqn:Hb; cbn -[zero unmarshal error_envelope_t].
    2:{ intros H; inversion H; subst; now constructor. }
    destruct (url_ok env nodeURI) eqn:Hu; cbn -[zero unmarshal error_envelope_t].
    2:{ intros H; inversion H; subst; now apply (pe_url b). }
    destruct (http_do env _) as [m|s rd] eqn:Hd; cbn -[zero unmarshal error_envelope_t].
    { intros H; inversion H; subst; now apply (pe_transport b). }
    destruct (s =? 200) eqn:Hs; cbn -[zero unmarshal error_envelope_t].
    2:{ intros H; inversion H; subst. apply (pe_status b s rd); auto. now apply Z.eqb_neq. }
    apply Z.eqb_eq in Hs; subst s.
    destruct rd as [bs|]; cbn -[zero unmarshal error_envelope_t].
    2:{ intros H; inversion H; subst; now apply (pe_read b). }
    destruct (unmarshal t bs cur) as [model [u|]] eqn:Hm; cbn -[zero unmarshal error_envelope_t].
    { intros H; inversion H; subst. apply (pe_model b bs); auto. now rewrite Hm. }
    destruct (unmarshal error_envelope_t bs _) as [er [u|]] eqn:He; cbn -[zero unmarshal error_envelope_t].
    { intros H; inversion H; subst. apply (pe_envelope b bs); auto.
      - now rewrite Hm.
      - now rewrite He. }
    destruct (String.eqb (env_message er) "") eqn:Hmsg; cbn -[zero unmarshal error_envelope_t]; intros H; inversion H; subst.
    apply (pe_rpc b bs er); auto.
    + now rewrite Hm.
    + now apply String.eqb_neq.
  - intros H; inversion H; subst;
      match goal with Hb : build_body _ _ = _ |- _ => rewrite Hb end; cbn -[zero unmarshal error_envelope_t];
      try match goal with Hu : url_ok _ _ = _ |- _ => rewrite Hu end; cbn -[zero unmarshal error_envelope_t];
      try match goal with Hd : http_do _ _ = _ |- _ => rewrite Hd end; cbn -[zero unmarshal error_envelope_t]; auto.
    + apply Z.eqb_neq in H3. now rewrite H3.
    + destruct (unmarshal t bs cur) as [model [u'|]]; cbn -[zero unmarshal error_envelope_t] in *; congruence.
    + destruct (unmarshal t bs cur) as [model [u'|]]; cbn -[zero unmarshal error_envelope_t] in *; [congruence|].
      destruct (unmarshal error_envelope_t bs _) as [er [u'|]]; cbn -[zero unmarshal error_envelope_t] in *; congruence.
    + destruct (unmarshal t bs cur) as [model [u'|]]; cbn -[zero unmarshal error_envelope_t] in *; [congruence|].
      match goal with He : unmarshal error_envelope_t _ _ = _ |- _ => rewrite He end.
      apply String.eqb_neq in H5. now rewrite H5.
Qed.

Lemma executeRequest_ok v :
  fst (executeRequest env method params nodeURI t cur) = (v, None) <-> pipeline_ok v.
Proof.
  unfold executeRequest, pipeline_ok. fold (build_body method params).
  split.
  - destruct (build_body method params) as [b|] eqn:Hb; cbn -[zero unmarshal error_envelope_t]; [|discriminate].
    destruct (url_ok env nodeURI) eqn:Hu; cbn -[zero unmarshal error_envelope_t]; [|discriminate].
    destruct (http_do env _) as [m|s rd] eqn:Hd; cbn -[zero unmarshal error_envelope_t]; [discriminate|].
    destruct (s =? 200) eqn:Hs; cbn -[zero unmarshal error_envelope_t]; [|discriminate].
    apply Z.eqb_eq in Hs; subst s.
    destruct rd as [bs|]; cbn -[zero unmarshal error_envelope_t]; [|discriminate].
    destruct (unmarshal t bs cur) as [model [u|]] eqn:Hm; cbn -[zero unmarshal error_envelope_t]; [discriminate|].
    destruct (unmarshal error_envelope_t bs _) as [er [u|]] eqn:He; cbn -[zero unmarshal error_envelope_t]; [discriminate|].
    destruct (String.eqb (env_message er) "") eqn:Hmsg; cbn -[zero unmarshal error_envelope_t]; [|discriminate].
    intros H; inversion H; subst.
    exists b, bs, er. repeat split; auto. now apply String.eqb_eq.
  - intros (b & bs & e & Hb & Hu & Hd & Hm & He & Hmsg).
    rewrite Hb; cbn -[zero unmarshal error_envelope_t]; rewrite Hu; cbn -[zero unmarshal error_envelope_t]; rewrite Hd; cbn -[zero unmarshal error_envelope_t].
    rewrite Hm, He, Hmsg. reflexivity.
Qed.

End Pipeline.

(** ** Every operation is one [executeRequest] followed by a projection *)

(** [bodyParameters] as the operation passes it: nil for the operations
    without parameters. *)
Definition call_params (call : Call) : option (list param) :=
  match call with
  | CGetBestBlockHash | CGetBlockCount | CGetConnectionCount
  | CGetUnconfirmedTransactions | CGetNewAddress => None
  | _ => Some (rpc_params call)
  end.

(** The results an operation returns with an error. *)
Definition call_zero (call : Call) : list goval :=
  match call with
  | CGetBestBlockHash | CGetBlockHash _ | CGetStorage _ _ | CGetNewAddress
  | CSendToAddress _ _ _ => [VString ""]
  | CGetBlockByHash _ | CGetBlockByIndex _ | CGetTransaction _
  | CGetTransactionOutput _ _ => [VPtr None]
  | CGetBlockCount | CGetConnectionCount => [VInt 0]
  | CGetUnconfirmedTransactions => [VSlice None]
  | CValidateAddress _ => [VBool false]
  | CGetBalance _ => [VString ""; VString ""]
  end.

(** The checks of [ValidateAddress] on the result map. *)
Definition validate_map (address : string) (m : goval) : bool :=
  match map_lookup "address" m, map_lookup "isvalid" m with
  | Some (JStr returnedAddress), Some (JBool valid) =>
      String.eqb address returnedAddress && valid
  | _, _ => false
  end.

(** The results an operation returns on success, from the decoded
    response [resp]. *)
Definition call_success (tx_id_key : string) (call : Call) (resp : goval) : list goval :=
  match call with
  | CGetBlockByHash _ | CGetBlockByIndex _ | CGetTransaction _
  | CGetTransactionOutput _ _ => [VPtr (Some (fld "result" resp))]
  | CValidateAddress a => [VBool (validate_map a (fld "result" resp))]
  | CGetBalance _ => [fld "balance" (fld "result" resp); fld "confirmed" (fld "result" resp)]
  | CSendToAddress _ _ _ => [fld tx_id_key (fld "result" resp)]
  | _ => [fld "result" resp]
  end.

Lemma run_call_shape block_t tx_t vout_t tx_id_key env c call :
  run_call block_t tx_t vout_t tx_id_key env c call =
  (x <- executeRequest env (rpc_method call) (call_params call) (Node c)
          (call_type block_t tx_t vout_t call) (zero (call_type block_t tx_t vout_t call)) ;;
   let (resp, err) := x in
   match err with
   | Some e => ret (call_zero call, Some e)
   | None => ret (call_success tx_id_key call resp, None)
   end).
Proof.
  destruct call; try reflexivity.
  cbn [run_call]. unfold ValidateAddress, bind.
  destruct (executeRequest _ _ _ _ _ _) as [[resp [e|]] w]; [reflexivity|].
  unfold call_success, validate_map.
  destruct (map_lookup "address" _) as [[]|]; try reflexivity.
  destruct (map_lookup "isvalid" _) as [[]|]; try reflexivity.
  destruct (String.eqb _ _ && _); reflexivity.
Qed.

Lemma run_call_posted block_t tx_t vout_t tx_id_key env c call :
  snd (run_call block_t tx_t vout_t tx_id_key env c call) =
  posted env (rpc_method call) (call_params call) (Node c).
Proof.
  rewrite run_call_shape. unfold bind.
  rewrite <- (executeRequest_posted env (rpc_method call) (call_params call) (Node c)
               (call_type block_t tx_t vout_t call) (zero (call_type block_t tx_t vout_t call))).
  destruct (executeRequest _ _ _ _ _ _) as [[resp [e|]] w]; simpl; apply app_nil_r.
Qed.

Lemma run_call_results block_t tx_t vout_t tx_id_key env c call :
  fst (run_call block_t tx_t vout_t tx_id_key env c call) =
  let (resp, err) := fst (executeRequest env (rpc_method call) (call_params call) (Node c)
          (call_type block_t tx_t vout_t call) (zero (call_type block_t tx_t vout_t call))) in
  match err with
  | Some e => (call_zero call, Some e)
  | None => (call_success tx_id_key call resp, None)
  end.
Proof.
  rewrite run_call_shape. unfold bind.
  destruct (executeRequest _ _ _ _ _ _) as [[resp [e|]] w]; reflexivity.
Qed.

(** ** Facts about error texts *)

Lemma is_prefix_app p s : is_prefix p (p ++ s) = true.
Proof.
  induction p as [|a p IH]; simpl; [reflexivity|].
  rewrite Ascii.eqb_refl. exact IH.
Qed.

Lemma contains_here sub s : contains (sub ++ s) sub = true.
Proof.
  destruct sub; [destruct s; reflexivity|]. simpl.
  rewrite Ascii.eqb_refl, is_prefix_app. reflexivity.
Qed.

Lemma contains_app_l x s sub : contains s sub = true -> contains (x ++ s) sub = true.
Proof.
  intros H. induction x as [|a x IH]; simpl; [exact H|].
  rewrite IH. apply orb_true_r.
Qed.

Lemma append_nil_r (s : string) : s ++ "" = s.
Proof. induction s as [|a s IH]; simpl; [reflexivity|]. now rewrite IH. Qed.

Lemma contains_refl s : contains s s = true.
Proof. pose proof (contains_here s "") as H. now rewrite append_nil_r in H. Qed.

Lemma rpc_text_contains c m :
  contains (error_text (ERPC c m)) (z_to_string c) = true /\
  contains (error_text (ERPC c m)) m = true.
Proof.
  simpl. split.
  - apply (contains_app_l "error code: "). apply contains_here.
  - apply (contains_app_l "error code: "), contains_app_l,
      (contains_app_l ", error message: "), contains_refl.
Qed.

Lemma status_text_contains s : contains (error_text (EStatus s)) (z_to_string s) = true.
Proof.
  simpl. apply (contains_app_l "non-200 status code returned from NEO node, got: '").
  apply contains_here.
Qed.

(** ** C1: a populated error envelope *)

Definition rpc_error_body (msg : string) : json :=
  JObj [("jsonrpc", JStr "2.0"); ("id", JInt 1);
        ("error", JObj [("code", JInt (-32601)); ("message", JStr msg)])].

(** C1 (counterexample): a populated envelope does not always give an error
    carrying its code and message: with status 500 the status error is
    returned; a body that also has a string [result] makes [GetBlockCount]
    fail on decoding while [GetBestBlockHash] reports the envelope; and an
    envelope with a code but an empty message gives no error at all. *)
Lemma C1_populated_envelope_counterexample :
  (let e := snd (fst (executeRequest (env_const (HttpResponse 500 (Some (BJson (rpc_error_body "Method not found")))))
                   "getblockcount" None "http://seed1" Integer_t (zero Integer_t))) in
   e = Some (EStatus 500) /\
   contains (error_text (EStatus 500)) "Method not found" = false) /\
  (let j := JObj [("result", JStr "x");
                  ("error", JObj [("code", JInt (-32601)); ("message", JStr "Method not found")])] in
   snd (fst (GetBlockCount (env_const (body_of j)) (NewClient "http://seed1")))
     = Some (EUnmarshal UType) /\
   snd (fst (GetBestBlockHash (env_const (body_of j)) (NewClient "http://seed1")))
     = Some (ERPC (-32601) "Method not found")) /\
  snd (fst (GetBlockCount (env_const (body_of (rpc_error_body ""))) (NewClient "http://seed1")))
    = None.
Proof. vm_compute. repeat split; reflexivity. Qed.

(** C1 (amended): once [executeRequest] reaches the envelope check (body
    built and posted, status 200, body decoded into the model and into the
    error envelope), it returns an error exactly when the envelope's message
    is non-empty, and the error's text contains the envelope's code and
    message. *)
Theorem C1_envelope_error_carries_code_and_message
    env method params nodeURI t cur b bs v e :
  build_body method params = Some b ->
  url_ok env nodeURI = true ->
  http_do env (mkRequest nodeURI b) = HttpResponse 200 (Some bs) ->
  unmarshal t bs cur = (v, None) ->
  unmarshal error_envelope_t bs (zero error_envelope_t) = (e, None) ->
  (env_message e <> "" ->
     fst (executeRequest env method params nodeURI t cur)
       = (v, Some (ERPC (env_code e) (env_message e))) /\
     contains (error_text (ERPC (env_code e) (env_message e))) (z_to_string (env_code e)) = true /\
     contains (error_text (ERPC (env_code e) (env_message e))) (env_message e) = true) /\
  (env_message e = "" -> fst (executeRequest env method params nodeURI t cur) = (v, None)).
Proof.
  intros Hb Hu Hd Hm He.
  unfold executeRequest. fold (build_body method params).
  rewrite Hb. cbn -[zero unmarshal error_envelope_t]. rewrite Hu.
  cbn -[zero unmarshal error_envelope_t]. rewrite Hd.
  cbn -[zero unmarshal error_envelope_t]. rewrite Hm, He.
  split.
  - intros Hne. apply String.eqb_neq in Hne. rewrite Hne. simpl.
    split; [reflexivity|]. apply rpc_text_contains.
  - intros Heq. rewrite Heq. reflexivity.
Qed.

Definition env_ok_for (j : json) : Env := env_const (body_of j).

Lemma C1_envelope_error_carries_code_and_message_witness :
  let j := rpc_error_body "Method not found" in
  fst (executeRequest (env_ok_for j) "getblockcount" None "http://seed1" Integer_t (zero Integer_t))
    = (VStruct [("id", VInt 1); ("jsonrpc", VString "2.0"); ("result", VInt 0)],
       Some (ERPC (-32601) "Method not found")).
Proof.
  intros j.
  pose proof (C1_envelope_error_carries_code_and_message (env_ok_for j) "getblockcount" None
              "http://seed1" Integer_t (zero Integer_t)
              (JObj [("jsonrpc", JStr "2.0"); ("method", JStr "getblockcount");
                     ("params", JArr []); ("id", JInt rpc_id)])
              (BJson j)
              (VStruct [("id", VInt 1); ("jsonrpc", VString "2.0"); ("result", VInt 0)])
              (VStruct [("id", VInt 1); ("jsonrpc", VString "2.0");
                        ("error", VStruct [("code", VInt (-32601));
                                           ("message", VString "Method not found")])])
              eq_refl eq_refl eq_refl eq_refl eq_refl) as [H _].
  destruct H as [H _]; [vm_compute; discriminate|].
  exact H.
Defined.

(** ** C3: where errors come from *)

(** C3 (counterexample): a 200 response whose body is not JSON produces an
    error although the transport worked, the status is 200 and no error
    envelope was received: decoding is a fourth source of errors. *)
Lemma C3_three_sources_counterexample :
  http_do (env_const (HttpResponse 200 (Some BMalformed)))
          (mkRequest "http://seed1" (JObj [("jsonrpc", JStr "2.0"); ("method", JStr "getblockcount");
                                           ("params", JArr []); ("id", JInt rpc_id)]))
    = HttpResponse 200 (Some BMalformed) /\
  snd (fst (executeRequest (env_const (HttpResponse 200 (Some BMalformed))) "getblockcount" None
                           "http://seed1" Integer_t (zero Integer_t)))
    = Some (EUnmarshal USyntax).
Proof. split; reflexivity. Qed.

(** C3 (amended): [executeRequest] posts at most one request (no retries);
    it fails exactly when one step of the pipeline fails (building the body,
    creating the request, the transport, a non-200 status, reading the body,
    decoding it into the model or into the error envelope, a non-empty
    envelope message), with the error of the first failing step, and it
    succeeds exactly when every step succeeds. *)
Theorem C3_error_is_first_failing_step env method params nodeURI t cur :
  (length (snd (executeRequest env method params nodeURI t cur)) <= 1)%nat /\
  (forall e, snd (fst (executeRequest env method params nodeURI t cur)) = Some e <->
             pipeline_error env method params nodeURI t cur e) /\
  (forall v, fst (executeRequest env method params nodeURI t cur) = (v, None) <->
             pipeline_ok env method params nodeURI t cur v).
Proof.
  split; [|split].
  - rewrite executeRequest_posted. unfold posted.
    destruct (build_body _ _); [destruct (url_ok _ _)|]; simpl; lia.
  - intros e. apply executeRequest_error.
  - intros v. apply executeRequest_ok.
Qed.

(** ** C4: non-200 statuses *)

(** C4: when the node answers with a status other than 200, [executeRequest]
    returns the status error, whose text reports the status code, and the
    calling operation returns its zero results with that error. *)
Theorem C4_non_200_is_error block_t tx_t vout_t tx_id_key env c call b s rd :
  build_body (rpc_method call) (call_params call) = Some b ->
  url_ok env (Node c) = true ->
  http_do env (mkRequest (Node c) b) = HttpResponse s rd ->
  s <> 200 ->
  snd (fst (executeRequest env (rpc_method call) (call_params call) (Node c)
              (call_type block_t tx_t vout_t call) (zero (call_type block_t tx_t vout_t call))))
    = Some (EStatus s) /\
  fst (run_call block_t tx_t vout_t tx_id_key env c call) = (call_zero call, Some (EStatus s)) /\
  contains (error_text (EStatus s)) (z_to_string s) = true.
Proof.
  intros Hb Hu Hd Hs.
  assert (He : snd (fst (executeRequest env (rpc_method call) (call_params call) (Node c)
              (call_type block_t tx_t vout_t call) (zero (call_type block_t tx_t vout_t call))))
                 = Some (EStatus s)).
  { apply executeRequest_error. now apply (pe_status _ _ _ _ _ _ b s rd). }
  split; [exact He|split; [|apply status_text_contains]].
  rewrite run_call_results.
  destruct (fst (executeRequest _ _ _ _ _ _)) as [resp err]. simpl in He. now subst err.
Qed.

Lemma C4_non_200_is_error_witness :
  fst (run_call TAny TAny TAny "txid" (env_const (HttpResponse 503 None))
                (NewClient "http://seed1") (CGetBlockByHash "0xab"))
    = ([VPtr None], Some (EStatus 503)).
Proof.
  destruct (C4_non_200_is_error TAny TAny TAny "txid" (env_const (HttpResponse 503 None))
              (NewClient "http://seed1") (CGetBlockByHash "0xab")
              (JObj [("jsonrpc", JStr "2.0"); ("method", JStr "getblock");
                     ("params", JArr [JStr "0xab"; JInt 1]); ("id", JInt rpc_id)])
              503 None eq_refl eq_refl eq_refl) as [_ [H _]].
  - lia.
  - exact H.
Defined.

(** ** C5: the envelope on success *)

(** C5 (counterexample): [executeRequest] succeeds on a body whose error
    envelope has code -1 and an empty message: the envelope's error field is
    not empty. *)
Lemma C5_empty_error_field_counterexample :
  let j := JObj [("result", JInt 1); ("error", JObj [("code", JInt (-1)); ("message", JStr "")])] in
  snd (fst (executeRequest (env_ok_for j) "getblockcount" None "http://seed1"
                           Integer_t (zero Integer_t))) = None /\
  env_code (fst (unmarshal error_envelope_t (BJson j) (zero error_envelope_t))) = -1.
Proof. vm_compute. split; reflexivity. Qed.

(** C5 (amended): when [executeRequest] succeeds, the response it processed
    was a JSON document, received with status 200 for the one request
    posted, whose decoded error envelope has an empty message (the code is
    not checked). *)
Theorem C5_success_has_empty_error_message env method params nodeURI t cur v :
  fst (executeRequest env method params nodeURI t cur) = (v, None) ->
  exists b j e,
    snd (executeRequest env method params nodeURI t cur) = [mkRequest nodeURI b] /\
    http_do env (mkRequest nodeURI b) = HttpResponse 200 (Some (BJson j)) /\
    unmarshal error_envelope_t (BJson j) (zero error_envelope_t) = (e, None) /\
    env_message e = "".
Proof.
  intros H. apply executeRequest_ok in H.
  destruct H as (b & bs & e & Hb & Hu & Hd & Hm & He & Hmsg).
  destruct bs as [|j]; [discriminate|].
  exists b, j, e. repeat split; auto.
  rewrite executeRequest_posted. unfold posted. now rewrite Hb, Hu.
Qed.

Lemma C5_success_has_empty_error_message_witness :
  exists b j e,
    snd (executeRequest (env_ok_for (JObj [("result", JInt 9)])) "getblockcount" None "http://n"
                        Integer_t (zero Integer_t)) = [mkRequest "http://n" b] /\
    http_do (env_ok_for (JObj [("result", JInt 9)])) (mkRequest "http://n" b)
      = HttpResponse 200 (Some (BJson j)) /\
    unmarshal error_envelope_t (BJson j) (zero error_envelope_t) = (e, None) /\
    env_message e = "".
Proof.
  apply (C5_success_has_empty_error_message _ _ _ _ _ _
           (VStruct [("id", VInt 0); ("jsonrpc", VString ""); ("result", VInt 9)])).
  reflexivity.
Defined.

(** ** C6: what a successful operation returns *)

(** The operations that return the result field itself (or a pointer to
    it). *)
Definition returns_result_field (call : Call) : bool :=
  match call with
  | CValidateAddress _ | CGetBalance _ | CSendToAddress _ _ _ => false
  | _ => true
  end.

Lemma run_call_success block_t tx_t vout_t tx_id_key env c call vs :
  fst (run_call block_t tx_t vout_t tx_id_key env c call) = (vs, None) ->
  exists b j,
    snd (run_call block_t tx_t vout_t tx_id_key env c call) = [mkRequest (Node c) b] /\
    http_do env (mkRequest (Node c) b) = HttpResponse 200 (Some (BJson j)) /\
    vs = call_success tx_id_key call
           (fst (unmarshal (call_type block_t tx_t vout_t call) (BJson j)
                           (zero (call_type block_t tx_t vout_t call)))).
Proof.
  rewrite run_call_results, run_call_posted.
  destruct (fst (executeRequest env (rpc_method call) (call_params call) (Node c)
                  (call_type block_t tx_t vout_t call) (zero (call_type block_t tx_t vout_t call))))
    as [resp err] eqn:Hx.
  destruct err as [e|]; [discriminate|].
  intros H; inversion H; subst vs.
  apply executeRequest_ok in Hx.
  destruct Hx as (b & bs & e & Hb & Hu & Hd & Hm & He & Hmsg).
  destruct bs as [|j]; [discriminate|].
  exists b, j. split; [|split; [exact Hd|]].
  - unfold posted. now rewrite Hb, Hu.
  - now rewrite Hm.
Qed.

(** C6 (counterexample): [ValidateAddress] succeeds with [true] while the
    result field of its envelope is a map: the value returned is not the
    result field (nor a pointer to it). *)
Lemma C6_result_field_counterexample :
  let j := JObj [("result", JObj [("address", JStr "AQVh"); ("isvalid", JBool true)])] in
  let resp := fst (unmarshal StringMap_t (BJson j) (zero StringMap_t)) in
  fst (run_call TAny TAny TAny "txid" (env_ok_for j) (NewClient "http://n") (CValidateAddress "AQVh"))
    = ([VBool true], None) /\
  [VBool true] <> [fld "result" resp] /\
  [VBool true] <> [VPtr (Some (fld "result" resp))].
Proof. vm_compute. split; [reflexivity|split; discriminate]. Qed.

(** C6 (amended): when an operation succeeds, the one response received
    (status 200, a JSON document) is decoded into the operation's envelope,
    and every operation but [ValidateAddress], [GetBalance] and
    [SendToAddress] returns exactly its result field (a pointer to it for
    blocks, transactions and outputs); [GetBalance] returns the result's
    [balance] and [confirmed] fields, [SendToAddress] the result's
    transaction id and [ValidateAddress] a boolean computed from the result
    map. *)
Theorem C6_success_returns_result_field block_t tx_t vout_t tx_id_key env c call vs :
  fst (run_call block_t tx_t vout_t tx_id_key env c call) = (vs, None) ->
  exists b j,
    let resp := fst (unmarshal (call_type block_t tx_t vout_t call) (BJson j)
                               (zero (call_type block_t tx_t vout_t call))) in
    snd (run_call block_t tx_t vout_t tx_id_key env c call) = [mkRequest (Node c) b] /\
    http_do env (mkRequest (Node c) b) = HttpResponse 200 (Some (BJson j)) /\
    (returns_result_field call = true ->
       vs = [fld "result" resp] \/ vs = [VPtr (Some (fld "result" resp))]) /\
    (forall a, call = CGetBalance a ->
       vs = [fld "balance" (fld "result" resp); fld "confirmed" (fld "result" resp)]) /\
    (forall a t amt, call = CSendToAddress a t amt -> vs = [fld tx_id_key (fld "result" resp)]) /\
    (forall a, call = CValidateAddress a -> vs = [VBool (validate_map a (fld "result" resp))]).
Proof.
  intros H. apply run_call_success in H.
  destruct H as (b & j & Hp & Hd & Hvs).
  exists b, j. cbv zeta. split; [exact Hp|split; [exact Hd|]].
  subst vs.
  destruct call; cbn [call_success returns_result_field];
    repeat split; intros; try discriminate;
    try (left; reflexivity); try (right; reflexivity); congruence.
Qed.

Lemma C6_success_returns_result_field_witness :
  exists b j,
    let resp := fst (unmarshal Integer_t (BJson j) (zero Integer_t)) in
    snd (GetBlockCount (env_ok_for (JObj [("result", JInt 12)])) (NewClient "http://n"))
      = [mkRequest "http://n" b] /\
    http_do (env_ok_for (JObj [("result", JInt 12)])) (mkRequest "http://n" b)
      = HttpResponse 200 (Some (BJson j)) /\
    (true = true -> [VInt 12] = [fld "result" resp] \/ [VInt 12] = [VPtr (Some (fld "result" resp))]) /\
    (forall a, CGetBlockCount = CGetBalance a ->
       [VInt 12] = [fld "balance" (fld "result" resp); fld "confirmed" (fld "result" resp)]) /\
    (forall a t amt, CGetBlockCount = CSendToAddress a t amt ->
       [VInt 12] = [fld "txid" (fld "result" resp)]) /\
    (forall a, CGetBlockCount = CValidateAddress a ->
       [VInt 12] = [VBool (validate_map a (fld "result" resp))]).
Proof.
  exact (C6_success_returns_result_field TAny TAny TAny "txid"
           (env_ok_for (JObj [("result", JInt 12)])) (NewClient "http://n") CGetBlockCount
           [VInt 12] eq_refl).
Defined.

(** ** C7: request bodies *)

Lemma build_body_shape call b :
  build_body (rpc_method call) (call_params call) = Some b ->
  exists js, marshal_params (rpc_params call) = Some js /\
    b = JObj [("jsonrpc", JStr "2.0"); ("method", JStr (rpc_method call));
              ("params", JArr js); ("id", JInt rpc_id)].
Proof.
  intros H.
  destruct call; simpl in H;
    try (inversion H; subst; exists []; split; reflexivity);
    unfold NewBodyWithParameters in H;
    destruct (marshal_params _) as [js|] eqn:Hm; inversion H; subst; eauto.
Qed.

(** C7 (spec-modelled body builders): every request an operation posts goes
    to the client's node and is a JSON-RPC 2.0 request object carrying the
    operation's RPC method name and its positional parameters. *)
Theorem C7_request_is_jsonrpc_envelope block_t tx_t vout_t tx_id_key env c call r :
  In r (snd (run_call block_t tx_t vout_t tx_id_key env c call)) ->
  req_uri r = Node c /\
  valid_jsonrpc_request (req_body r) = true /\
  json_member "jsonrpc" (req_body r) = Some (JStr "2.0") /\
  json_member "method" (req_body r) = Some (JStr (rpc_method call)) /\
  exists js, marshal_params (rpc_params call) = Some js /\
             json_member "params" (req_body r) = Some (JArr js).
Proof.
  rewrite run_call_posted. unfold posted.
  destruct (build_body (rpc_method call) (call_params call)) as [b|] eqn:Hb; [|contradiction].
  destruct (url_ok env (Node c)); [|contradiction].
  intros [<-|[]]. simpl.
  apply build_body_shape in Hb. destruct Hb as (js & Hm & ->).
  split; [reflexivity|]. split; [reflexivity|]. split; [reflexivity|].
  split; [reflexivity|]. exists js. split; [exact Hm|reflexivity].
Qed.

Lemma C7_request_is_jsonrpc_envelope_witness :
  let r := mkRequest "http://n"
             (JObj [("jsonrpc", JStr "2.0"); ("method", JStr "getblock");
                    ("params", JArr [JStr "0xbeef"; JInt 1]); ("id", JInt rpc_id)]) in
  req_uri r = "http://n" /\
  valid_jsonrpc_request (req_body r) = true /\
  json_member "jsonrpc" (req_body r) = Some (JStr "2.0") /\
  json_member "method" (req_body r) = Some (JStr "getblock") /\
  exists js, marshal_params [PStr "0xbeef"; PInt 1] = Some js /\
             json_member "params" (req_body r) = Some (JArr js).
Proof.
  apply (C7_request_is_jsonrpc_envelope TAny TAny TAny "txid" (env_const (HttpResponse 500 None))
           (NewClient "http://n") (CGetBlockByHash "0xbeef")).
  simpl. left. reflexivity.
Defined.

(** ** Node selection *)

(** The block count a node reports to [GetBlockCount], if the call
    succeeds. *)
Definition count_of (env : Env) (u : string) : option Z :=
  match fst (GetBlockCount env (NewClient u)) with
  | (vs, None) => Some (as_int vs)
  | (_, Some _) => None
  end.

Lemma count_of_empty env : count_of env "" = None.
Proof.
  unfold count_of, GetBlockCount, executeRequest, bind. simpl.
  destruct (url_ok env ""); reflexivity.
Qed.

Lemma select_loop_cons env u rest h b :
  select_loop env (u :: rest) h b =
  (let (r, w') :=
     match count_of env u with
     | Some n => if n >? h then select_loop env rest n u else select_loop env rest h b
     | None => select_loop env rest h b
     end in
   (r, (snd (GetBlockCount env (NewClient u)) ++ w')%list)).
Proof.
  simpl. unfold bind, count_of.
  destruct (GetBlockCount env (NewClient u)) as [[vs [e|]] w]; reflexivity.
Qed.

(** The loop asks every URI for its block count, in order. *)
Lemma select_loop_posted env uris h b :
  snd (select_loop env uris h b) = flat_map (fun u => snd (GetBlockCount env (NewClient u))) uris.
Proof.
  revert h b. induction uris as [|u rest IH]; intros h b; [reflexivity|].
  rewrite select_loop_cons. simpl.
  destruct (count_of env u) as [n|]; [destruct (n >? h)|];
    match goal with |- snd (let (r, w') := ?m in _) = _ => destruct m as [r w'] eqn:E end;
    simpl; f_equal;
    match goal with E : select_loop _ _ ?h' ?b' = _ |- _ => rewrite <- (IH h' b'), E end;
    reflexivity.
Qed.

(** The loop keeps its state when no node beats [h]; otherwise it ends on the
    earliest node with the highest count, which beats [h]. *)
Lemma select_loop_result env uris h b :
  let (h', b') := fst (select_loop env uris h b) in
  (h' = h /\ b' = b /\ forall u n, In u uris -> count_of env u = Some n -> n <= h) \/
  (h < h' /\ exists i, nth_error uris i = Some b' /\ count_of env b' = Some h' /\
     (forall j u n, (j < i)%nat -> nth_error uris j = Some u -> count_of env u = Some n -> n < h') /\
     (forall u n, In u uris -> count_of env u = Some n -> n <= h')).
Proof.
  revert h b. induction uris as [|u rest IH]; intros h b.
  - simpl. left. repeat split. intros u n [].
  - rewrite select_loop_cons.
    destruct (count_of env u) as [n|] eqn:Hu.
    + destruct (n >? h) eqn:Hn.
      * apply Z.gtb_lt in Hn.
        specialize (IH n u).
        destruct (select_loop env rest n u) as [[h' b'] w] eqn:E. simpl in IH |- *.
        right. destruct IH as [(-> & -> & Hall)|(Hlt & i & Hi & Hc & Hearly & Hall)].
        -- split; [lia|]. exists 0%nat. repeat split; auto.
           ++ intros j u' m Hj. lia.
           ++ intros u' m [<-|Hin] Hm; [rewrite Hu in Hm; inversion Hm; lia|]. eauto.
        -- split; [lia|]. exists (S i). repeat split; auto.
           ++ intros [|j] u' m Hj Hnth Hm; simpl in Hnth.
              ** inversion Hnth; subst. congruence || lia.
              ** apply (Hearly j u' m); auto; lia.
           ++ intros u' m [<-|Hin] Hm; [|eauto]. rewrite Hu in Hm. inversion Hm. lia.
      * rewrite Z.gtb_ltb in Hn. apply Z.ltb_ge in Hn.
        specialize (IH h b).
        destruct (select_loop env rest h b) as [[h' b'] w] eqn:E. simpl in IH |- *.
        destruct IH as [(-> & -> & Hall)|(Hlt & i & Hi & Hc & Hearly & Hall)].
        -- left. repeat split. intros u' m [<-|Hin] Hm; [|eauto]. rewrite Hu in Hm. inversion Hm. lia.
        -- right. split; [lia|]. exists (S i). repeat split; auto.
           ++ intros [|j] u' m Hj Hnth Hm; simpl in Hnth.
              ** inversion Hnth; subst. rewrite Hu in Hm. inversion Hm. lia.
              ** apply (Hearly j u' m); auto; lia.
           ++ intros u' m [<-|Hin] Hm; [|eauto]. rewrite Hu in Hm. inversion Hm. lia.
    + specialize (IH h b).
      destruct (select_loop env rest h b) as [[h' b'] w] eqn:E. simpl in IH |- *.
      destruct IH as [(-> & -> & Hall)|(Hlt & i & Hi & Hc & Hearly & Hall)].
      * left. repeat split. intros u' m [<-|Hin] Hm; [congruence|eauto].
      * right. split; [lia|]. exists (S i). repeat split; auto.
        -- intros [|j] u' m Hj Hnth Hm; simpl in Hnth.
           ++ inversion Hnth; subst. congruence.
           ++ apply (Hearly j u' m); auto; lia.
        -- intros u' m [<-|Hin] Hm; [congruence|eauto].
Qed.

(** With one URI, [SelectBestNode] takes it and posts nothing. *)
Lemma select_best_single env c u :
  nodeURIs c = [u] -> SelectBestNode env c = ((mkClient u [u], None), []).
Proof. intros H. unfold SelectBestNode. now rewrite H. Qed.

(** What [SelectBestNode] does with two or more URIs: it asks each URI for
    its block count, in order, and either takes the earliest URI with the
    highest positive count, or fails, leaving the client as it was, when no
    URI reports a positive count. *)
Definition select_multi_spec (env : Env) (c : Client) : Prop :=
  snd (SelectBestNode env c) = flat_map (fun u => snd (GetBlockCount env (NewClient u))) (nodeURIs c) /\
  ((exists i u h,
      nth_error (nodeURIs c) i = Some u /\ count_of env u = Some h /\ 0 < h /\
      (forall u' n, In u' (nodeURIs c) -> count_of env u' = Some n -> n <= h) /\
      (forall j u' n, (j < i)%nat -> nth_error (nodeURIs c) j = Some u' ->
                      count_of env u' = Some n -> n < h) /\
      fst (SelectBestNode env c) = (mkClient u (nodeURIs c), None)) \/
   ((forall u n, In u (nodeURIs c) -> count_of env u = Some n -> n <= 0) /\
    fst (SelectBestNode env c) = (c, Some (EText "Unable to communicate with any nodes")))).

Lemma select_best_multi env c :
  (2 <= length (nodeURIs c))%nat -> select_multi_spec env c.
Proof.
  intros Hlen. unfold select_multi_spec, SelectBestNode.
  destruct c as [node uris]. cbn [nodeURIs] in *.
  destruct uris as [|u1 [|u2 rest]]; simpl in Hlen; try lia.
  cbv beta iota.
  set (us := u1 :: u2 :: rest).
  pose proof (select_loop_result env us 0 "") as R.
  pose proof (select_loop_posted env us 0 "") as P.
  unfold bind.
  destruct (select_loop env us 0 "") as [[h' b'] w] eqn:E. simpl in R, P.
  destruct (String.eqb b' "") eqn:Hb.
  - apply String.eqb_eq in Hb. subst b'. cbn -[select_loop].
    split; [now rewrite app_nil_r|].
    destruct R as [(_ & _ & Hall)|(_ & i & _ & Hc & _)].
    + right. split; [exact Hall|reflexivity].
    + now rewrite count_of_empty in Hc.
  - cbn -[select_loop]. split; [now rewrite app_nil_r|].
    destruct R as [(_ & Hb' & _)|(Hlt & i & Hi & Hc & Hearly & Hall)].
    + subst b'. discriminate.
    + left. exists i, b', h'. repeat split; auto.
Qed.

(** ** C2: best-node selection *)

(** C2 (counterexample): a single unreachable URI is taken without any
    query and without error; and with two reachable nodes that both report
    block count 0, selection fails although both answered. *)
Lemma C2_best_node_counterexample :
  SelectBestNode (env_const (TransportFailure "connection refused")) (mkClient "" ["http://down"])
    = ((mkClient "http://down" ["http://down"], None), []) /\
  count_of (env_ok_for (JObj [("result", JInt 0)])) "http://a" = Some 0 /\
  snd (fst (SelectBestNode (env_ok_for (JObj [("result", JInt 0)]))
                           (mkClient "" ["http://a"; "http://b"])))
    = Some (EText "Unable to communicate with any nodes").
Proof. vm_compute. repeat split. Qed.

(** C2 (amended): with one URI, [SelectBestNode] sets [Node] to it without
    querying it and returns nil; with two or more it queries each URI in
    order and sets [Node] to the earliest URI reporting the highest block
    count, provided that count is positive; when no URI reports a positive
    count (in particular when none can be reached) it returns an error and
    leaves [Node] unchanged. *)
Theorem C2_select_best_node env c :
  (forall u, nodeURIs c = [u] -> SelectBestNode env c = ((mkClient u [u], None), [])) /\
  ((2 <= length (nodeURIs c))%nat -> select_multi_spec env c).
Proof.
  split.
  - intros u. apply select_best_single.
  - apply select_best_multi.
Qed.

Definition env_two_nodes : Env :=
  mkEnv (fun _ => true)
        (fun r => if String.eqb (req_uri r) "http://a"
                  then body_of (JObj [("result", JInt 5)])
                  else body_of (JObj [("result", JInt 9)])).

Lemma C2_select_best_node_witness :
  SelectBestNode env_two_nodes (mkClient "x" ["x"]) = ((mkClient "x" ["x"], None), []) /\
  select_multi_spec env_two_nodes (mkClient "" ["http://a"; "http://b"]).
Proof.
  split.
  - apply (proj1 (C2_select_best_node env_two_nodes (mkClient "x" ["x"]))). reflexivity.
  - apply (proj2 (C2_select_best_node env_two_nodes (mkClient "" ["http://a"; "http://b"]))).
    simpl. lia.
Defined.

(** ** C9: details of the selection *)

(** The node [SelectBestNode] settles on with two or more URIs: it reported a
    positive block count, no higher one was reported, and every node before it
    in the list reported a strictly lower count or none. *)
Definition selected_node_props (env : Env) (c : Client) : Prop :=
  forall c', fst (SelectBestNode env c) = (c', None) ->
  exists i h,
    nth_error (nodeURIs c) i = Some (Node c') /\ count_of env (Node c') = Some h /\ 0 < h /\
    (forall u n, In u (nodeURIs c) -> count_of env u = Some n -> n <= h) /\
    (forall j u n, (j < i)%nat -> nth_error (nodeURIs c) j = Some u ->
                   count_of env u = Some n -> n < h) /\
    (forall u n, count_of env u = Some n -> n <= 0 -> Node c' <> u).

(** C9: with two or more URIs, a node reporting a block count of 0 or less
    is never selected, and among nodes tied at the highest count the
    earliest is selected; with one URI that URI is selected and no request
    is posted. *)
Theorem C9_selection_details env c :
  (forall u, nodeURIs c = [u] -> SelectBestNode env c = ((mkClient u [u], None), [])) /\
  ((2 <= length (nodeURIs c))%nat -> selected_node_props env c).
Proof.
  split.
  - intros u. apply select_best_single.
  - intros Hlen c' Hsel.
    destruct (select_best_multi env c Hlen) as [_ [(i & u & h & Hi & Hc & Hpos & Hall & Hearly & Hs)
                                                  |(_ & Hs)]];
      rewrite Hsel in Hs; inversion Hs; subst c'.
    exists i, h. cbn [Node]. repeat split; auto.
    intros u' n Hn Hle <-. rewrite Hc in Hn. inversion Hn. lia.
Qed.

Definition env_tie : Env :=
  mkEnv (fun _ => true)
        (fun r => if String.eqb (req_uri r) "http://zero"
                  then body_of (JObj [("result", JInt 0)])
                  else body_of (JObj [("result", JInt 7)])).

Lemma C9_selection_details_witness :
  SelectBestNode env_tie (mkClient "" ["http://only"])
    = ((mkClient "http://only" ["http://only"], None), []) /\
  selected_node_props env_tie (mkClient "" ["http://zero"; "http://a"; "http://b"]).
Proof.
  split.
  - apply (proj1 (C9_selection_details env_tie (mkClient "" ["http://only"]))). reflexivity.
  - apply (proj2 (C9_selection_details env_tie (mkClient "" ["http://zero"; "http://a"; "http://b"]))).
    simpl. lia.
Defined.

(** ** C8: [NewClientUsingMultipleNodes] *)

(** C8: [NewClientUsingMultipleNodes] fails exactly on an empty list; for a
    non-empty list it returns the client [SelectBestNode] left and a nil
    error, dropping the selection's error, in which case [Node] is the empty
    string. *)
Theorem C8_new_client_multiple_nodes env uris :
  (snd (fst (NewClientUsingMultipleNodes env uris)) <> None <-> uris = []) /\
  (uris <> [] ->
   let (c', e) := fst (SelectBestNode env (mkClient "" uris)) in
   fst (NewClientUsingMultipleNodes env uris) = (Some c', None) /\
   nodeURIs c' = uris /\
   (e <> None -> Node c' = "")).
Proof.
  split.
  - unfold NewClientUsingMultipleNodes.
    destruct uris as [|u rest]; cbn [length Nat.eqb].
    + split; [reflexivity|discriminate].
    + unfold bind. destruct (SelectBestNode env (mkClient "" (u :: rest))) as [[c' e] w]. simpl.
      split; [congruence|discriminate].
  - intros Hne.
    unfold NewClientUsingMultipleNodes.
    destruct uris as [|u rest]; [congruence|]. cbn [length Nat.eqb].
    unfold bind.
    destruct rest as [|u2 rest].
    + rewrite (select_best_single env (mkClient "" [u]) u eq_refl). simpl.
      repeat split. congruence.
    + destruct (select_best_multi env (mkClient "" (u :: u2 :: rest)))
        as [_ [(i & v & h & _ & _ & _ & _ & _ & Hs)|(_ & Hs)]]; [simpl; lia| |];
      destruct (SelectBestNode env (mkClient "" (u :: u2 :: rest))) as [[c' e] w];
      simpl in Hs |- *; inversion Hs; subst; repeat split; congruence.
Qed.

Lemma C8_new_client_multiple_nodes_witness :
  (snd (fst (NewClientUsingMultipleNodes env_tie [])) <> None <-> [] = @nil string) /\
  fst (NewClientUsingMultipleNodes (env_const (TransportFailure "down")) ["http://a"; "http://b"])
    = (Some (mkClient "" ["http://a"; "http://b"]), None).
Proof.
  split.
  - apply (proj1 (C8_new_client_multiple_nodes env_tie [])).
  - pose proof (proj2 (C8_new_client_multiple_nodes (env_const (TransportFailure "down"))
                        ["http://a"; "http://b"])) as H.
    specialize (H ltac:(discriminate)). vm_compute in H |- *.
    destruct H as [H _]. exact H.
Defined.

(** ** C10: [ValidateAddress] *)

(** C10: [ValidateAddress] returns [(true, nil)] exactly when the RPC
    succeeds and the result map holds the string [address] equal to the
    queried address and the boolean [isvalid] equal to true; when the map
    lacks either key or holds it at another type it returns [(false, nil)],
    not an error. *)
Theorem C10_validate_address env c address :
  (fst (ValidateAddress env c address) = ([VBool true], None) <->
   exists resp,
     fst (executeRequest env "validateaddress" (Some [PStr address]) (Node c)
                         StringMap_t (zero StringMap_t)) = (resp, None) /\
     map_lookup "address" (fld "result" resp) = Some (JStr address) /\
     map_lookup "isvalid" (fld "result" resp) = Some (JBool true)) /\
  (forall resp,
     fst (executeRequest env "validateaddress" (Some [PStr address]) (Node c)
                         StringMap_t (zero StringMap_t)) = (resp, None) ->
     (forall s, map_lookup "address" (fld "result" resp) <> Some (JStr s)) \/
     (forall b, map_lookup "isvalid" (fld "result" resp) <> Some (JBool b)) ->
     fst (ValidateAddress env c address) = ([VBool false], None)).
Proof.
  unfold ValidateAddress, bind.
  destruct (executeRequest env "validateaddress" (Some [PStr address]) (Node c)
                           StringMap_t (zero StringMap_t)) as [[resp [e|]] w].
  - split.
    + split; [discriminate|]. intros (r & H & _). discriminate.
    + intros r H. discriminate.
  - cbn [fst]. split.
    + split.
      * destruct (map_lookup "address" (fld "result" resp)) as [[| | | |a| |]|] eqn:Ha;
          try discriminate.
        destruct (map_lookup "isvalid" (fld "result" resp)) as [[|v| | | | |]|] eqn:Hv;
          try discriminate.
        destruct (String.eqb address a) eqn:Heq, v; try discriminate.
        intros _. apply String.eqb_eq in Heq. subst a. exists resp. auto.
      * intros (r & Hr & Ha & Hv). inversion Hr; subst r.
        rewrite Ha, Hv, String.eqb_refl. reflexivity.
    + intros r Hr Hmiss. inversion Hr; subst r.
      destruct Hmiss as [Ha|Hv].
      * destruct (map_lookup "address" (fld "result" resp)) as [[| | | |a| |]|] eqn:Ha';
          try reflexivity.
        exfalso. exact (Ha a eq_refl).
      * destruct (map_lookup "address" (fld "result" resp)) as [[| | | |a| |]|];
          try reflexivity.
        destruct (map_lookup "isvalid" (fld "result" resp)) as [[|v| | | | |]|] eqn:Hv';
          try reflexivity.
        exfalso. exact (Hv v eq_refl).
Qed.

Lemma C10_validate_address_witness :
  let j := JObj [("result", JObj [("address", JStr "AQVh"); ("isvalid", JStr "yes")])] in
  fst (ValidateAddress (env_ok_for j) (NewClient "http://n") "AQVh") = ([VBool false], None).
Proof.
  intros j.
  apply (proj2 (C10_validate_address (env_ok_for j) (NewClient "http://n") "AQVh")
               (VStruct [("id", VInt 0); ("jsonrpc", VString "");
                         ("result", VMap (Some [("address", VAny (JStr "AQVh"));
                                               ("isvalid", VAny (JStr "yes"))]))])).
  - reflexivity.
  - right. intros b. discriminate.
Defined.

(** * Further properties of the client *)

(** ** [NewClient] and selection *)

(** [SelectBestNode] keeps the URI list; on success the new [Node] is one of
    the URIs; on failure the client is left unchanged. *)
Theorem select_best_node_keeps_uris env c :
  let (c', e) := fst (SelectBestNode env c) in
  nodeURIs c' = nodeURIs c /\
  (e = None -> In (Node c') (nodeURIs c)) /\
  (e <> None -> c' = c).
Proof.
  destruct (nodeURIs c) as [|u1 [|u2 rest]] eqn:Hc.
  - unfold SelectBestNode. rewrite Hc. simpl.
    repeat split; intros; try discriminate; congruence.
  - rewrite (select_best_single env c u1 Hc). simpl. repeat split; auto.
    intros H; congruence.
  - destruct (select_best_multi env c) as [_ [(i & u & h & Hi & _ & _ & _ & _ & Hs)|(_ & Hs)]];
      [rewrite Hc; simpl; lia| |]; rewrite Hs.
    + simpl. repeat split; intros; try congruence.
      change (In u (u1 :: u2 :: rest)). rewrite <- Hc. eapply nth_error_In; eauto.
    + repeat split; intros; try discriminate; try congruence.
Qed.

(** On a client with no URIs, [SelectBestNode] posts nothing and fails,
    leaving the client unchanged. *)
Theorem select_best_node_empty env c :
  nodeURIs c = [] ->
  SelectBestNode env c = ((c, Some (EText "Unable to communicate with any nodes")), []).
Proof. intros H. unfold SelectBestNode. now rewrite H. Qed.

Lemma select_best_node_empty_witness :
  SelectBestNode env_tie (mkClient "http://x" [])
    = ((mkClient "http://x" [], Some (EText "Unable to communicate with any nodes")), []).
Proof. apply select_best_node_empty. reflexivity. Defined.





(** ** Operations and their errors *)

(** Every operation returns an error exactly when its [executeRequest] does,
    the same error, with its zero results: no operation adds an error of its
    own or drops one ([ValidateAddress] answers its failed checks with
    [false] and a nil error). *)
Theorem operation_error_is_request_error block_t tx_t vout_t tx_id_key env c call e :
  fst (run_call block_t tx_t vout_t tx_id_key env c call) = (call_zero call, Some e) <->
  snd (fst (executeRequest env (rpc_method call) (call_params call) (Node c)
              (call_type block_t tx_t vout_t call) (zero (call_type block_t tx_t vout_t call))))
    = Some e.
Proof.
  rewrite run_call_results.
  destruct (fst (executeRequest _ _ _ _ _ _)) as [resp [e'|]]; simpl.
  - split; intros H; inversion H; reflexivity.
  - split; intros H; discriminate.
Qed.

(** An operation on a client whose [Node] is empty (the client
    [NewClientUsingMultipleNodes] returns when no node could be selected)
    always fails with its zero results: the body cannot be built, the URI is
    rejected, or the transport refuses the empty scheme. *)
Theorem empty_node_always_fails block_t tx_t vout_t tx_id_key env c call :
  Node c = "" ->
  exists e,
    fst (run_call block_t tx_t vout_t tx_id_key env c call) = (call_zero call, Some e) /\
    (e = EMarshal \/ e = EBadURL \/ e = ETransport "unsupported protocol scheme").
Proof.
  intros Hn. rewrite run_call_results.
  destruct (fst (executeRequest env (rpc_method call) (call_params call) (Node c)
              (call_type block_t tx_t vout_t call) (zero (call_type block_t tx_t vout_t call))))
    as [resp [e|]] eqn:Hx.
  - exists e. split; [reflexivity|].
    assert (He : snd (fst (executeRequest env (rpc_method call) (call_params call) (Node c)
              (call_type block_t tx_t vout_t call) (zero (call_type block_t tx_t vout_t call))))
                 = Some e) by (rewrite Hx; reflexivity).
    apply executeRequest_error in He.
    rewrite Hn in He. unfold http_do in He. simpl in He.
    inversion He; subst; auto; try discriminate.
    right; right.
    match goal with H : _ = TransportFailure _ |- _ => simpl in H; inversion H; reflexivity end.
  - apply executeRequest_ok in Hx.
    destruct Hx as (b & bs & e & _ & _ & Hd & _).
    rewrite Hn in Hd. discriminate.
Qed.

Lemma empty_node_always_fails_witness :
  exists e,
    fst (run_call TAny TAny TAny "txid" env_tie (mkClient "" ["http://a"; "http://b"]) CGetBlockCount)
      = (call_zero CGetBlockCount, Some e) /\
    (e = EMarshal \/ e = EBadURL \/ e = ETransport "unsupported protocol scheme").
Proof. apply empty_node_always_fails. reflexivity. Defined.

(** Building the request body fails only for [SendToAddress] with an amount
    [json.Marshal] rejects; that call then posts nothing and returns an
    empty transaction id with the marshalling error. *)
Theorem only_send_to_address_can_fail_to_build block_t tx_t vout_t tx_id_key env c call :
  (build_body (rpc_method call) (call_params call) = None <->
   exists a t, call = CSendToAddress a t PUnencodable) /\
  (forall a t, call = CSendToAddress a t PUnencodable ->
   run_call block_t tx_t vout_t tx_id_key env c call = (([VString ""], Some EMarshal), [])).
Proof.
  split.
  - destruct call; simpl; try (split; [discriminate|intros (a & t & H); discriminate]).
    destruct amount; simpl; split; intros H; try discriminate;
      try (destruct H as (a & t & H); discriminate); eauto.
  - intros a t ->. reflexivity.
Qed.

Lemma only_send_to_address_can_fail_to_build_witness :
  run_call TAny TAny TAny "txid" env_tie (NewClient "http://a")
           (CSendToAddress "NEO" "AQVh" PUnencodable) = (([VString ""], Some EMarshal), []).
Proof.
  apply (proj2 (only_send_to_address_can_fail_to_build TAny TAny TAny "txid" env_tie
                  (NewClient "http://a") (CSendToAddress "NEO" "AQVh" PUnencodable))
               "NEO" "AQVh").
  reflexivity.
Defined.

(** A node answering a JSON [null] with status 200 makes every operation
    succeed with the results it derives from an all-zero response: 0 block
    count, empty hash, nil slice, [false] from [ValidateAddress]. *)
Theorem null_body_gives_zero_results block_t tx_t vout_t tx_id_key env c call :
  build_body (rpc_method call) (call_params call) <> None ->
  url_ok env (Node c) = true ->
  Node c <> "" ->
  (forall r, req_uri r = Node c -> net env r = HttpResponse 200 (Some (BJson JNull))) ->
  fst (run_call block_t tx_t vout_t tx_id_key env c call)
    = (call_success tx_id_key call (zero (call_type block_t tx_t vout_t call)), None).
Proof.
  intros Hb Hu Hn Hnet.
  rewrite run_call_results.
  destruct (build_body (rpc_method call) (call_params call)) as [b|] eqn:Hb'; [|congruence].
  assert (Hok : pipeline_ok env (rpc_method call) (call_params call) (Node c)
                  (call_type block_t tx_t vout_t call) (zero (call_type block_t tx_t vout_t call))
                  (zero (call_type block_t tx_t vout_t call))).
  { exists b, (BJson JNull), (zero error_envelope_t). repeat split; auto.
    unfold http_do. simpl. apply String.eqb_neq in Hn. rewrite Hn. apply Hnet. reflexivity. }
  apply executeRequest_ok in Hok. rewrite Hok. reflexivity.
Qed.

Lemma null_body_gives_zero_results_witness :
  fst (run_call TAny TAny TAny "txid" (env_ok_for JNull) (NewClient "http://a") CGetBlockCount)
    = ([VInt 0], None).
Proof.
  apply (null_body_gives_zero_results TAny TAny TAny "txid" (env_ok_for JNull)
           (NewClient "http://a") CGetBlockCount).
  - discriminate.
  - reflexivity.
  - discriminate.
  - intros r _. reflexivity.
Defined.

(** ** The storage key of [GetStorage] ([hex.EncodeToString]) *)

Definition hex_value (a : ascii) : nat :=
  let n := nat_of_ascii a in if (n <? 58)%nat then (n - 48)%nat else (n - 87)%nat.

Definition is_lower_hex (a : ascii) : bool :=
  let n := nat_of_ascii a in
  ((48 <=? n)%nat && (n <=? 57)%nat) || ((97 <=? n)%nat && (n <=? 102)%nat).

Lemma hex_digit_value d : (d < 16)%nat -> hex_value (hex_digit d) = d /\ is_lower_hex (hex_digit d) = true.
Proof.
  intros Hd.
  do 16 (destruct d as [|d]; [split; reflexivity|]). lia.
Qed.

Lemma hex_encode_length s : String.length (hex_encode s) = (2 * String.length s)%nat.
Proof. induction s as [|c s IH]; simpl; [reflexivity|]. rewrite IH. lia. Qed.

Lemma hex_split c :
  nat_of_ascii c = (16 * (nat_of_ascii c / 16) + nat_of_ascii c mod 16)%nat /\
  (nat_of_ascii c / 16 < 16)%nat /\ (nat_of_ascii c mod 16 < 16)%nat.
Proof.
  pose proof (Ascii.nat_ascii_bounded c).
  split; [apply Nat.div_mod; lia|].
  split; [apply Nat.Div0.div_lt_upper_bound; lia|apply Nat.mod_upper_bound; lia].
Qed.

Lemma hex_encode_cons c s :
  hex_encode (String c s) =
  String (hex_digit (nat_of_ascii c / 16)) (String (hex_digit (nat_of_ascii c mod 16)) (hex_encode s)).
Proof. reflexivity. Qed.

Fixpoint string_forall (p : ascii -> bool) (s : string) : bool :=
  match s with
  | EmptyString => true
  | String c r => p c && string_forall p r
  end.

(** The storage key [GetStorage] sends is twice as long as the key, made of
    lower-case hex digits only, and distinct keys are sent as distinct
    parameters. *)
Theorem storage_key_hex_encoding k k' :
  String.length (hex_encode k) = (2 * String.length k)%nat /\
  string_forall is_lower_hex (hex_encode k) = true /\
  (hex_encode k = hex_encode k' -> k = k').
Proof.
  split; [apply hex_encode_length|split].
  - induction k as [|c k IH]; [reflexivity|]. rewrite hex_encode_cons. cbn [string_forall].
    destruct (hex_split c) as (_ & Hq & Hr).
    rewrite (proj2 (hex_digit_value _ Hq)), (proj2 (hex_digit_value _ Hr)). exact IH.
  - revert k'. induction k as [|c k IH]; intros [|c' k'] H;
      rewrite ?hex_encode_cons in H; try discriminate; [reflexivity|].
    pose proof (f_equal (fun s => match s with String a _ => hex_value a | _ => 0%nat end) H) as Hq.
    pose proof (f_equal (fun s => match s with String _ (String a _) => hex_value a | _ => 0%nat end) H)
      as Hr.
    pose proof (f_equal (fun s => match s with String _ (String _ r) => r | _ => EmptyString end) H)
      as Hrest.
    cbv beta iota in Hq, Hr, Hrest.
    destruct (hex_split c) as (Ec & Qc & Rc). destruct (hex_split c') as (Ec' & Qc' & Rc').
    rewrite (proj1 (hex_digit_value _ Qc)), (proj1 (hex_digit_value _ Qc')) in Hq.
    rewrite (proj1 (hex_digit_value _ Rc)), (proj1 (hex_digit_value _ Rc')) in Hr.
    assert (Hn : nat_of_ascii c = nat_of_ascii c') by lia.
    rewrite <- (Ascii.ascii_nat_embedding c), <- (Ascii.ascii_nat_embedding c'), Hn.
    f_equal. now apply IH.
Qed.

Lemma storage_key_hex_encoding_witness :
  String.length (hex_encode "key") = (2 * String.length "key")%nat /\
  string_forall is_lower_hex (hex_encode "key") = true /\
  (hex_encode "key" = hex_encode "kez" -> "key" = "kez").
Proof. apply storage_key_hex_encoding. Defined.

(** ** What a node's answer becomes *)

Lemma run_call_on_body block_t tx_t vout_t tx_id_key env c call j b resp e :
  build_body (rpc_method call) (call_params call) = Some b ->
  url_ok env (Node c) = true -> Node c <> "" ->
  (forall r, req_uri r = Node c -> net env r = body_of j) ->
  unmarshal (call_type block_t tx_t vout_t call) (BJson j)
            (zero (call_type block_t tx_t vout_t call)) = (resp, None) ->
  unmarshal error_envelope_t (BJson j) (zero error_envelope_t) = (e, None) ->
  env_message e = "" ->
  fst (run_call block_t tx_t vout_t tx_id_key env c call) = (call_success tx_id_key call resp, None).
Proof.
  intros Hb Hu Hn Hnet Hm He Hmsg.
  rewrite run_call_results.
  assert (Hok : pipeline_ok env (rpc_method call) (call_params call) (Node c)
                  (call_type block_t tx_t vout_t call) (zero (call_type block_t tx_t vout_t call)) resp).
  { exists b, (BJson j), e. repeat split; auto.
    unfold http_do. simpl. apply String.eqb_neq in Hn. rewrite Hn. apply Hnet. reflexivity. }
  apply executeRequest_ok in Hok. rewrite Hok. reflexivity.
Qed.

Definition result_body (x : json) : json :=
  JObj [("jsonrpc", JStr "2.0"); ("id", JInt 1); ("result", x)].

(** A node answering [{"jsonrpc":"2.0","id":1,"result":n}] makes
    [GetBlockCount] and [GetConnectionCount] return [n] when [n] fits in an
    [int64], and otherwise fail with a decoding error and 0. *)
Theorem integer_result_round_trip env c n :
  url_ok env (Node c) = true -> Node c <> "" ->
  (forall r, req_uri r = Node c -> net env r = body_of (result_body (JInt n))) ->
  (int64_in_range n = true ->
     fst (GetBlockCount env c) = ([VInt n], None) /\
     fst (GetConnectionCount env c) = ([VInt n], None)) /\
  (int64_in_range n = false ->
     fst (GetBlockCount env c) = ([VInt 0], Some (EUnmarshal UType)) /\
     fst (GetConnectionCount env c) = ([VInt 0], Some (EUnmarshal UType))).
Proof.
  intros Hu Hn Hnet.
  assert (Hex : exists e, unmarshal error_envelope_t (BJson (result_body (JInt n))) (zero error_envelope_t)
               = (e, None) /\ env_message e = "") by (eexists; split; [cbn; reflexivity | reflexivity]).
  destruct Hex as [e [He Hmsg]].
  split; intros Hr.
  - assert (Hm : unmarshal Integer_t (BJson (result_body (JInt n))) (zero Integer_t)
                 = (VStruct [("id", VInt 1); ("jsonrpc", VString "2.0"); ("result", VInt n)], None)).
    { simpl. rewrite Hr. reflexivity. }
    split.
    + exact (run_call_on_body TAny TAny TAny "" env c CGetBlockCount _ _ _ _
               eq_refl Hu Hn Hnet Hm He Hmsg).
    + exact (run_call_on_body TAny TAny TAny "" env c CGetConnectionCount _ _ _ _
               eq_refl Hu Hn Hnet Hm He Hmsg).
  - assert (Hm : snd (unmarshal Integer_t (BJson (result_body (JInt n))) (zero Integer_t))
                 = Some UType).
    { simpl. rewrite Hr. reflexivity. }
    assert (Hd : forall m, http_do env (mkRequest (Node c) (JObj [("jsonrpc", JStr "2.0");
                   ("method", JStr m); ("params", JArr []); ("id", JInt rpc_id)]))
                 = HttpResponse 200 (Some (BJson (result_body (JInt n))))).
    { intros m. unfold http_do. simpl. apply String.eqb_neq in Hn. rewrite Hn. apply Hnet. reflexivity. }
    split.
    + apply (proj2 (operation_error_is_request_error TAny TAny TAny "" env c CGetBlockCount _)).
      apply executeRequest_error. eapply pe_model; [reflexivity|exact Hu|apply Hd|exact Hm].
    + apply (proj2 (operation_error_is_request_error TAny TAny TAny "" env c CGetConnectionCount _)).
      apply executeRequest_error. eapply pe_model; [reflexivity|exact Hu|apply Hd|exact Hm].
Qed.

Lemma integer_result_round_trip_witness :
  fst (GetBlockCount (env_ok_for (result_body (JInt 2000000))) (NewClient "http://a"))
    = ([VInt 2000000], None).
Proof.
  apply (integer_result_round_trip (env_ok_for (result_body (JInt 2000000))) (NewClient "http://a")
           2000000 eq_refl ltac:(discriminate) (fun r _ => eq_refl)).
  reflexivity.
Defined.

(** A node answering [{"jsonrpc":"2.0","id":1,"result":s}] with a string
    makes [GetBestBlockHash], [GetBlockHash], [GetStorage] and
    [GetNewAddress] return exactly [s]. *)
Theorem string_result_round_trip env c s index scriptHash storageKey :
  url_ok env (Node c) = true -> Node c <> "" ->
  (forall r, req_uri r = Node c -> net env r = body_of (result_body (JStr s))) ->
  fst (GetBestBlockHash env c) = ([VString s], None) /\
  fst (GetBlockHash env c index) = ([VString s], None) /\
  fst (GetStorage env c scriptHash storageKey) = ([VString s], None) /\
  fst (GetNewAddress env c) = ([VString s], None).
Proof.
  intros Hu Hn Hnet.
  assert (Hex : exists e, unmarshal error_envelope_t (BJson (result_body (JStr s))) (zero error_envelope_t)
               = (e, None) /\ env_message e = "") by (eexists; split; [cbn; reflexivity | reflexivity]).
  destruct Hex as [e [He Hmsg]].
  assert (Hm : unmarshal String_t (BJson (result_body (JStr s))) (zero String_t)
               = (VStruct [("id", VInt 1); ("jsonrpc", VString "2.0"); ("result", VString s)], None))
    by reflexivity.
  split; [|split; [|split]].
  - exact (run_call_on_body TAny TAny TAny "" env c CGetBestBlockHash _ _ _ _
             eq_refl Hu Hn Hnet Hm He Hmsg).
  - exact (run_call_on_body TAny TAny TAny "" env c (CGetBlockHash index) _ _ _ _
             eq_refl Hu Hn Hnet Hm He Hmsg).
  - exact (run_call_on_body TAny TAny TAny "" env c (CGetStorage scriptHash storageKey) _ _ _ _
             eq_refl Hu Hn Hnet Hm He Hmsg).
  - exact (run_call_on_body TAny TAny TAny "" env c CGetNewAddress _ _ _ _
             eq_refl Hu Hn Hnet Hm He Hmsg).
Qed.

Lemma string_result_round_trip_witness :
  fst (GetBestBlockHash (env_ok_for (result_body (JStr "0x77"))) (NewClient "http://a"))
    = ([VString "0x77"], None).
Proof.
  apply (string_result_round_trip (env_ok_for (result_body (JStr "0x77"))) (NewClient "http://a")
           "0x77" 0 "" "" eq_refl ltac:(discriminate) (fun r _ => eq_refl)).
Defined.
